(** * Request-resolution and cost-metering pipeline of the JSON-RPC relay

    A shallow embedding of
    - [packages/relay/src/lib/services/metricService/metricService.ts],
    - [packages/relay/src/lib/types/events.ts],
    - [packages/config-service/src/services/index.ts],
    and of the storage query engine exercised by
    [packages/relay/tests/lib/eth/eth_getStorageAt.spec.ts].

    Asynchronous code is read sequentially: an [await]ed call runs to
    completion before the next statement, a rejected promise is an
    exception.  Every interaction with a collaborator (logger, SDK client,
    mirror node client, budget enforcer, histograms, counter, registry) is
    written to a chronological list of effects, so that "is called",
    "is never called" and "is called before" are statements about lists. *)

From stdpp Require Import gmap strings list fin_maps pretty.

Open Scope string_scope.
Open Scope Z_scope.
Open Scope list_scope.

(** ** JavaScript values and exceptions *)

(** A thrown value: an [Error] object, of which the code reads the
    [message] and nothing else. *)
Record JsError := Error { message : string }.

(** The outcome of a call: a value, or a thrown exception (for an [async]
    function: a resolved, or a rejected promise). *)
Inductive Result (A : Type) :=
| Ok (a : A)
| Throw (e : JsError).
Arguments Ok {A} a.
Arguments Throw {A} e.

Definition is_Ok {A} (r : Result A) : bool :=
  match r with Ok _ => true | Throw _ => false end.

(** ** types/RequestDetails and types/events.ts *)

(** [formattedRequestId] is the correlation prefix the class derives from
    [requestId]; the class itself is defined elsewhere, so the prefix is
    carried as data. *)
Record RequestDetails := {
  requestId : string;
  ipAddress : string;
  formattedRequestId : string
}.

Record IExecuteTransactionEventPayload := {
  tx_transactionId : string;
  tx_callerName : string;
  tx_txConstructorName : string;
  tx_operatorAccountId : string;
  tx_interactingEntity : string;
  tx_requestDetails : RequestDetails;
  tx_originalCallerAddress : string
}.

(** [originalCallerAddress : string | undefined] is an [option]. *)
Record IExecuteQueryEventPayload := {
  q_executionMode : string;
  q_transactionId : string;
  q_txConstructorName : string;
  q_cost : Z;
  q_gasUsed : Z;
  q_status : string;
  q_requestDetails : RequestDetails;
  q_originalCallerAddress : option string
}.

Record IEthExecutionEventPayload := {
  eth_method : string;
  eth_requestDetails : RequestDetails
}.

Record ITransactionRecordMetric := {
  gasUsed : Z;
  transactionFee : Z;
  txRecordChargeAmount : Z;
  status : string
}.

(** The three kinds of message on the process-wide event bus. *)
Inductive ExecutionEvent :=
| TransactionExecuted (args : IExecuteTransactionEventPayload)
| QueryExecuted (args : IExecuteQueryEventPayload)
| EthMethodInvoked (args : IEthExecutionEventPayload).

(** [constants.EVENTS] and [constants.EXECUTION_MODE]. *)
Inductive EventName := EXECUTE_TRANSACTION | EXECUTE_QUERY | ETH_EXECUTION.

Global Instance EventName_eq_dec : EqDecision EventName.
Proof. solve_decision. Defined.

Definition event_name (ev : ExecutionEvent) : EventName :=
  match ev with
  | TransactionExecuted _ => EXECUTE_TRANSACTION
  | QueryExecuted _ => EXECUTE_QUERY
  | EthMethodInvoked _ => ETH_EXECUTION
  end.

Module EXECUTION_MODE.
Definition QUERY : string := "QUERY".
Definition RECORD : string := "RECORD".
Definition TRANSACTION : string := "TRANSACTION".
End EXECUTION_MODE.

(** ** prom-client metrics *)

Inductive MetricKind := HistogramMetric | CounterMetric.

(** What [new Histogram({...})] and [new Counter({...})] are built from.  A
    freshly built metric holds no sample. *)
Record Metric := {
  metric_kind : MetricKind;
  metric_name : string;
  metric_help : string;
  metric_labelNames : list string
}.

(** ** Effects *)

Inductive Effect :=
(* pino logger *)
| LogInfo (msg : string)
| LogDebug (msg : string)
| LogWarn (err : option JsError) (msg : string)
(* record retrieval strategies *)
| SdkGetTransactionRecordMetrics
    (transactionId txConstructorName operatorAccountId : string)
    (requestDetails : RequestDetails)
| MirrorGetTransactionRecordMetrics
    (transactionId txConstructorName operatorAccountId : string)
    (requestDetails : RequestDetails)
(* hbarLimitService.addExpense(cost, callerAddress, requestDetails) *)
| AddExpense (cost : Z) (callerAddress : string) (requestDetails : RequestDetails)
(* histogram.labels(mode, type, status).observe(v) *)
| CostObserve (mode type status : string) (v : Z)
| GasFeeObserve (mode type status : string) (v : Z)
(* ethExecutionsCounter.labels(method).inc() *)
| EthExecutionsInc (method : string)
(* registry *)
| RemoveSingleMetric (name : string)
| RegisterMetric (m : Metric)
(* mirror node REST *)
| MirrorGet (url : string)
(* ghost: entry into addExpenseAndCaptureMetrics with its payload *)
| Emission (payload : IExecuteQueryEventPayload)
(* a floating promise that rejected *)
| UnhandledRejection (e : JsError).

Definition is_AddExpense (e : Effect) : bool :=
  match e with AddExpense _ _ _ => true | _ => false end.
Definition is_CostObserve (e : Effect) : bool :=
  match e with CostObserve _ _ _ _ => true | _ => false end.
Definition is_GasFeeObserve (e : Effect) : bool :=
  match e with GasFeeObserve _ _ _ _ => true | _ => false end.
Definition is_strategy_call (e : Effect) : bool :=
  match e with
  | SdkGetTransactionRecordMetrics _ _ _ _
  | MirrorGetTransactionRecordMetrics _ _ _ _ => true
  | _ => false
  end.
Definition is_MirrorGet (e : Effect) : bool :=
  match e with MirrorGet _ => true | _ => false end.

(** The payloads of the emissions of a trace, in order. *)
Definition emissions (t : list Effect) : list IExecuteQueryEventPayload :=
  omap (λ e, match e with Emission p => Some p | _ => None end) t.

(** ** The effect monad

    [X] is the state of everything outside the relay process (ledger, mirror
    node, budget enforcer).  A computation reads and changes it only through
    the collaborators' calls, returns or throws, and lists its effects. *)
Section Monad.
Context {X : Type}.

Definition M (A : Type) : Type := X → Result A * X * list Effect.

Definition ret {A} (a : A) : M A := λ x, (Ok a, x, []).

Definition bind {A B} (m : M A) (f : A → M B) : M B := λ x,
  match m x with
  | (Ok a, x1, t1) =>
      match f a x1 with (r, x2, t2) => (r, x2, t1 ++ t2) end
  | (Throw e, x1, t1) => (Throw e, x1, t1)
  end.

Definition throw {A} (e : JsError) : M A := λ x, (Throw e, x, []).

Definition try_catch {A} (m : M A) (h : JsError → M A) : M A := λ x,
  match m x with
  | (Ok a, x1, t1) => (Ok a, x1, t1)
  | (Throw e, x1, t1) =>
      match h e x1 with (r, x2, t2) => (r, x2, t1 ++ t2) end
  end.

Definition effect (e : Effect) : M unit := λ x, (Ok tt, x, [e]).

(** A call to a collaborator [f]: the call is traced, then [f] decides on
    the outcome and on the next outside state. *)
Definition call {A} (e : Effect) (f : X → Result A * X) : M A := λ x,
  match f x with (r, x1) => (r, x1, [e]) end.

(** [p.then()] with nothing awaiting it: the caller goes on whatever the
    promise settles to. *)
Definition floating (m : M unit) : M unit :=
  try_catch m (λ e, effect (UnhandledRejection e)).

Definition outcome {A} (r : Result A * X * list Effect) : Result A := r.1.1.
Definition outside {A} (r : Result A * X * list Effect) : X := r.1.2.
Definition trace {A} (r : Result A * X * list Effect) : list Effect := r.2.
End Monad.
Arguments M X A : clear implicits.

Notation "'do' x <- m ; k" := (bind m (λ x, k))
  (at level 10, x name, m at level 100, k at level 200).
Notation "'do' ' pat <- m ; k" := (bind m (λ x, match x with pat => k end))
  (at level 10, pat pattern, m at level 100, k at level 200).
Notation "m ;;; k" := (bind m (λ _, k))
  (at level 100, k at level 200, right associativity).

(** ** Collaborators of the metering pipeline

    The clients injected into the constructor, and the values the service
    reads from the logger and from the configuration.  Their code is
    elsewhere: each call is an arbitrary function of the outside state and
    may resolve or reject. *)
Class Collaborators (X : Type) := {
  (** [this.sdkClient.getTransactionRecordMetrics] *)
  sdkClient_getTransactionRecordMetrics :
    string → string → string → RequestDetails →
    X → Result ITransactionRecordMetric * X;
  (** [this.mirrorNodeClient.getTransactionRecordMetrics] *)
  mirrorNodeClient_getTransactionRecordMetrics :
    string → string → string → RequestDetails →
    X → Result ITransactionRecordMetric * X;
  (** [this.hbarLimitService.addExpense] *)
  hbarLimitService_addExpense :
    Z → string → RequestDetails → X → Result unit * X;
  (** [this.logger.isLevelEnabled] *)
  logger_isLevelEnabled : string → bool;
  (** [ConfigService.get('GET_RECORD_DEFAULT_TO_CONSENSUS_NODE')] *)
  GET_RECORD_DEFAULT_TO_CONSENSUS_NODE : bool
}.

(** ** prom-client [Registry]

    [_metrics] is an object keyed by metric name.  [registerMetric] refuses a
    name that is taken by another metric object (a metric under construction
    is never the registered object itself); [removeSingleMetric] deletes the
    key, present or not. *)
Module Registry.
Section Registry.
Context {X : Type}.

Definition removeSingleMetric (name : string) (register : gmap string Metric)
  : M X (gmap string Metric) :=
  effect (RemoveSingleMetric name) ;;;
  ret (delete name register).

Definition registerMetric (metric : Metric) (register : gmap string Metric)
  : M X (gmap string Metric) :=
  effect (RegisterMetric metric) ;;;
  match register !! metric_name metric with
  | Some _ =>
      throw (Error ("A metric with the name " +:+ metric_name metric +:+
                    " has already been registered."))
  | None => ret (<[metric_name metric := metric]> register)
  end.
End Registry.
End Registry.

(** ** metricService.ts *)
Module MetricService.

(** The three metric handles the service keeps. *)
Record t := {
  consensusNodeClientHistogramCost : Metric;
  consensusNodeClientHistogramGasFee : Metric;
  ethExecutionsCounter : Metric
}.

Section MetricService.
Context {X : Type} {collaborators : Collaborators X}.

(** [new Histogram({name, help, labelNames, registers: [register]})] *)
Definition new_Histogram (name help : string) (labelNames : list string)
    (register : gmap string Metric) : M X (Metric * gmap string Metric) :=
  let metric := {| metric_kind := HistogramMetric; metric_name := name;
                   metric_help := help; metric_labelNames := labelNames |} in
  do register' <- Registry.registerMetric metric register;
  ret (metric, register').

(** [new Counter({name, help, labelNames, registers: [register]})] *)
Definition new_Counter (name help : string) (labelNames : list string)
    (register : gmap string Metric) : M X (Metric * gmap string Metric) :=
  let metric := {| metric_kind := CounterMetric; metric_name := name;
                   metric_help := help; metric_labelNames := labelNames |} in
  do register' <- Registry.registerMetric metric register;
  ret (metric, register').

Definition initCostMetric (register : gmap string Metric)
  : M X (Metric * gmap string Metric) :=
  let metricHistogramCost := "rpc_relay_consensusnode_response" in
  do register <- Registry.removeSingleMetric metricHistogramCost register;
  new_Histogram metricHistogramCost
    "Relay consensusnode mode type status cost histogram"
    ["mode"; "type"; "status"] register.

Definition initGasMetric (register : gmap string Metric)
  : M X (Metric * gmap string Metric) :=
  let metricHistogramGasFee := "rpc_relay_consensusnode_gasfee" in
  do register <- Registry.removeSingleMetric metricHistogramGasFee register;
  new_Histogram metricHistogramGasFee
    "Relay consensusnode mode type status gas fee histogram"
    ["mode"; "type"; "status"] register.

Definition initEthCounter (register : gmap string Metric)
  : M X (Metric * gmap string Metric) :=
  let metricCounterName := "rpc_relay_eth_executions" in
  do register <- Registry.removeSingleMetric metricCounterName register;
  new_Counter metricCounterName
    ("Relay " +:+ metricCounterName +:+ " function")
    ["method"] register.

Definition captureMetrics (mode type status : string) (cost gas : Z)
  : M X unit :=
  effect (CostObserve mode type status cost) ;;;
  effect (GasFeeObserve mode type status gas).

Definition addExpenseAndCaptureMetrics (payload : IExecuteQueryEventPayload)
  : M X unit :=
  let executionMode := q_executionMode payload in
  let transactionId := q_transactionId payload in
  let txConstructorName := q_txConstructorName payload in
  let cost := q_cost payload in
  let gasUsed := q_gasUsed payload in
  let status := q_status payload in
  let requestDetails := q_requestDetails payload in
  let originalCallerAddress := q_originalCallerAddress payload in
  effect (Emission payload) ;;;
  (if logger_isLevelEnabled "debug" then
     effect (LogDebug
       (formattedRequestId requestDetails +:+
        " Capturing transaction fee charged to operator: executionMode=" +:+
        executionMode +:+ " transactionId=" +:+ transactionId +:+
        ", txConstructorName=" +:+ txConstructorName +:+
        ", cost=" +:+ pretty cost +:+ " tinybars"))
   else ret tt) ;;;
  (let callerAddress := default "" originalCallerAddress in
   call (AddExpense cost callerAddress requestDetails)
        (hbarLimitService_addExpense cost callerAddress requestDetails)) ;;;
  captureMetrics executionMode txConstructorName status cost gasUsed.

Definition getTransactionRecordMetrics
    (transactionId txConstructorName operatorAccountId : string)
    (requestDetails : RequestDetails)
  : M X (option ITransactionRecordMetric) :=
  let defaultToConsensusNode := GET_RECORD_DEFAULT_TO_CONSENSUS_NODE in
  try_catch
    (if defaultToConsensusNode then
       do r <- call (SdkGetTransactionRecordMetrics
                       transactionId txConstructorName operatorAccountId
                       requestDetails)
                    (sdkClient_getTransactionRecordMetrics
                       transactionId txConstructorName operatorAccountId
                       requestDetails);
       ret (Some r)
     else
       do r <- call (MirrorGetTransactionRecordMetrics
                       transactionId txConstructorName operatorAccountId
                       requestDetails)
                    (mirrorNodeClient_getTransactionRecordMetrics
                       transactionId txConstructorName operatorAccountId
                       requestDetails);
       ret (Some r))
    (λ error,
       effect (LogWarn (Some error)
         (formattedRequestId requestDetails +:+
          " Could not fetch transaction record: error=" +:+ message error)) ;;;
       ret None).

Definition captureTransactionMetrics (payload : IExecuteTransactionEventPayload)
  : M X unit :=
  let transactionId := tx_transactionId payload in
  let txConstructorName := tx_txConstructorName payload in
  let operatorAccountId := tx_operatorAccountId payload in
  let requestDetails := tx_requestDetails payload in
  let originalCallerAddress := tx_originalCallerAddress payload in
  do transactionRecordMetrics <-
    getTransactionRecordMetrics transactionId txConstructorName
      operatorAccountId requestDetails;
  match transactionRecordMetrics with
  | Some m =>
      (if bool_decide (transactionFee m ≠ 0) then
         addExpenseAndCaptureMetrics
           {| q_executionMode := EXECUTION_MODE.TRANSACTION;
              q_transactionId := transactionId;
              q_txConstructorName := txConstructorName;
              q_cost := transactionFee m;
              q_gasUsed := gasUsed m;
              q_status := status m;
              q_requestDetails := requestDetails;
              q_originalCallerAddress := Some originalCallerAddress |}
       else ret tt) ;;;
      (if bool_decide (txRecordChargeAmount m ≠ 0) then
         addExpenseAndCaptureMetrics
           {| q_executionMode := EXECUTION_MODE.RECORD;
              q_transactionId := transactionId;
              q_txConstructorName := txConstructorName;
              q_cost := txRecordChargeAmount m;
              q_gasUsed := 0;
              q_status := status m;
              q_requestDetails := requestDetails;
              q_originalCallerAddress := Some originalCallerAddress |}
       else ret tt)
  | None => ret tt
  end.

(** The three listeners the constructor attaches.  The first two start
    an [async] method and do not await it. *)
Definition listener (ev : ExecutionEvent) : M X unit :=
  match ev with
  | TransactionExecuted args => floating (captureTransactionMetrics args)
  | QueryExecuted args => floating (addExpenseAndCaptureMetrics args)
  | EthMethodInvoked args => effect (EthExecutionsInc (eth_method args))
  end.

(** [eventEmitter.on(name, ...)]: the emitter is the list of the event
    names a listener of this service is attached to, oldest first. *)
Definition on (name : EventName) (eventEmitter : list EventName)
  : list EventName := eventEmitter ++ [name].

(** [eventEmitter.emit(name, args)] runs, in order of attachment, every
    listener attached to the name of the event. *)
Fixpoint emit (eventEmitter : list EventName) (ev : ExecutionEvent)
  : M X unit :=
  match eventEmitter with
  | [] => ret tt
  | name :: rest =>
      (if bool_decide (name = event_name ev) then listener ev else ret tt) ;;;
      emit rest ev
  end.

Definition constructor (register : gmap string Metric)
    (eventEmitter : list EventName)
  : M X (t * gmap string Metric * list EventName) :=
  do '(cost, register) <- initCostMetric register;
  do '(gasFee, register) <- initGasMetric register;
  do '(counter, register) <- initEthCounter register;
  let eventEmitter := on EXECUTE_TRANSACTION eventEmitter in
  let eventEmitter := on EXECUTE_QUERY eventEmitter in
  let eventEmitter := on ETH_EXECUTION eventEmitter in
  ret ({| consensusNodeClientHistogramCost := cost;
          consensusNodeClientHistogramGasFee := gasFee;
          ethExecutionsCounter := counter |},
       register, eventEmitter).
End MetricService.
End MetricService.

(** ** config-service/src/services/index.ts *)
Module ConfigService.

(** Values held by [envs] after type casting, and by the defaults of
    [GlobalConfig.ENTRIES]. *)
Inductive JsValue :=
| VUndefined
| VNull
| VBool (b : bool)
| VNum (n : Z)
| VStr (s : string).

(** [if (v)] *)
Definition truthy (v : JsValue) : bool :=
  match v with
  | VUndefined | VNull => false
  | VBool b => b
  | VNum n => bool_decide (n ≠ 0)
  | VStr s => bool_decide (s ≠ "")
  end.

(** [v == undefined] *)
Definition eq_undefined (v : JsValue) : bool :=
  match v with VUndefined | VNull => true | _ => false end.

(** [v !== undefined] *)
Definition strict_ne_undefined (v : JsValue) : bool :=
  match v with VUndefined => false | _ => true end.

Record ConfigEntry := {
  required : bool;
  defaultValue : JsValue
}.

(** [GlobalConfig] is imported from [./globalConfig]: its table of entries
    is a parameter, and so is the rendering [Number(value).toString(16)] that
    [get] applies to [CHAIN_ID] only. *)
Class GlobalConfig := {
  ENTRIES : gmap string ConfigEntry;
  Number_toString_16 : JsValue → string
}.

Section ConfigService.
Context {X : Type} {globalConfig : GlobalConfig}.

(** [private get(name)], on the [envs] of the instance *)
Definition get (envs : gmap string JsValue) (name : string) : M X JsValue :=
  let configEntry := ENTRIES !! name in
  let value :=
    if eq_undefined (default VUndefined (envs !! name))
    then default VUndefined (defaultValue <$> configEntry)
    else default VUndefined (envs !! name) in
  if eq_undefined value && default false (required <$> configEntry) then
    throw (Error ("Configuration error: " +:+ name +:+
                  " is a mandatory configuration for relay operation."))
  else
    let value :=
      if bool_decide (name = "CHAIN_ID") && strict_ne_undefined value
      then VStr ("0x" +:+ Number_toString_16 value)
      else value in
    ret value.

(** [array.forEach(callback)]: an exception thrown by the callback ends
    the iteration and leaves [forEach]. *)
Fixpoint forEach {A} (callback : A → M X unit) (array : list A) : M X unit :=
  match array with
  | [] => ret tt
  | a :: rest => callback a ;;; forEach callback rest
  end.

Definition validateReadOnlyMode (envs : gmap string JsValue) : M X unit :=
  let vars := ["OPERATOR_ID_MAIN"; "OPERATOR_KEY_MAIN"] in
  do READ_ONLY <- get envs "READ_ONLY";
  if truthy READ_ONLY then
    effect (LogInfo "Relay is in READ_ONLY mode. It will not send transactions.") ;;;
    forEach (λ varName,
      do v <- get envs varName;
      if truthy v then
        effect (LogWarn None
          ("Relay is in READ_ONLY mode, but " +:+ varName +:+
           " is set. The Relay will not be able to send transactions."))
      else ret tt) vars
  else
    forEach (λ varName,
      do v <- get envs varName;
      if negb (truthy v) then
        throw (Error ("Configuration error: " +:+ varName +:+
                      " is mandatory for Relay operations in Read-Write mode."))
      else ret tt) vars.

(** The value [get] works with: the one of the environment, or else the
    entry's default. *)
Definition setting (envs : gmap string JsValue) (name : string) : JsValue :=
  if eq_undefined (default VUndefined (envs !! name))
  then default VUndefined (defaultValue <$> (ENTRIES !! name))
  else default VUndefined (envs !! name).

(** A setting the code takes for missing, [!this.get(varName)]: the
    variable is unset or null and has no default, or its value is empty
    (falsy). *)
Definition absent (envs : gmap string JsValue) (name : string) : Prop :=
  truthy (setting envs name) = false.

(** [READ_ONLY] is on. *)
Definition readOnly (envs : gmap string JsValue) : bool :=
  truthy (setting envs "READ_ONLY").

(** The entry of [name], if there is one, is not marked [required]. *)
Definition optional (name : string) : Prop :=
  default false (required <$> (ENTRIES !! name)) = false.

Definition is_log (e : Effect) : bool :=
  match e with LogInfo _ | LogDebug _ | LogWarn _ _ => true | _ => false end.

(** The error [get] throws for [name]. *)
Definition mandatory_error (name : string) : JsError :=
  Error ("Configuration error: " +:+ name +:+
         " is a mandatory configuration for relay operation.").

(** The error [validateReadOnlyMode] throws for [varName]. *)
Definition read_write_error (varName : string) : JsError :=
  Error ("Configuration error: " +:+ varName +:+
         " is mandatory for Relay operations in Read-Write mode.").

(** The warning [validateReadOnlyMode] prints for [varName]. *)
Definition read_only_warning (varName : string) : Effect :=
  LogWarn None
    ("Relay is in READ_ONLY mode, but " +:+ varName +:+
     " is set. The Relay will not be able to send transactions.").
End ConfigService.
End ConfigService.

(** ** The storage query engine

    [Eth.getStorageAt] and the block resolver it calls are implemented
    outside the files embedded here; the test suite
    [eth_getStorageAt.spec.ts] fixes the shape of the requests and of the
    answers. *)
Module Eth.

Inductive BlockTag := latest | pending | earliest | safe | finalized.

(** Modelled from the spec: the block specifier of section 3, a number, a
    hash or a named tag; its type declaration is missing. *)
Inductive BlockSpecifier :=
| Number (n : N)
| Hash (h : string)
| Tag (t : BlockTag).

(** Modelled from the spec: the resolved block of section 3, a descriptor
    with its timestamp window, or the unbounded marker; its type declaration
    is missing. *)
Record BlockDescriptor := {
  number : N;
  hash : string;
  timestampFrom : string;
  timestampTo : string
}.

Inductive ResolvedBlock :=
| Pinned (b : BlockDescriptor)
| Unbounded.

(** Modelled from the spec: the contract state entry of section 3, as the
    mirror node sends it; its type declaration is missing. *)
Record ContractStateEntry := {
  slot : string;
  value : string
}.

(** Answers of [contracts/{address}/state]. *)
Inductive StateResponse :=
| NotFound404
| Ok200 (state : list ContractStateEntry).

(** The mirror node as seen through its REST client: a block lookup
    answers a descriptor or a null body, a state lookup one of the two
    answers above. *)
Class MirrorNode (X : Type) := {
  mirror_getBlock : string → X → option BlockDescriptor * X;
  mirror_getContractState : string → X → StateResponse * X
}.

(** [constants.ZERO_HEX_32_BYTE], which is [ethers.ZeroHash] *)
Definition ZERO_HEX_32_BYTE : string :=
  "0x0000000000000000000000000000000000000000000000000000000000000000".

(** Modelled from the spec: the predefined [RESOURCE_NOT_FOUND] error of
    section 7, [predefined.RESOURCE_NOT_FOUND()] in the test suite; its
    definition is missing. *)
Definition RESOURCE_NOT_FOUND : JsError :=
  Error "Requested resource not found.".

Section Eth.
Context {X : Type} {mirrorNode : MirrorNode X}.

Definition getBlock (id : string) : M X (option BlockDescriptor) := λ x,
  match mirror_getBlock ("blocks/" +:+ id) x with
  | (body, x1) => (Ok body, x1, [MirrorGet ("blocks/" +:+ id)])
  end.

Definition getContractState (url : string) : M X StateResponse := λ x,
  match mirror_getContractState url x with
  | (response, x1) => (Ok response, x1, [MirrorGet url])
  end.

(** Modelled from the spec: the block resolver of section 4.1, whose
    source file is missing.  A number or a hash is looked up once by that
    identity and a null body is the [RESOURCE_NOT_FOUND] failure;
    [latest], [safe], [finalized] and [pending] resolve to the unbounded
    marker without a lookup; [earliest] resolves to the lowest-numbered
    block. *)
Definition resolve (specifier : BlockSpecifier) (requestDetails : RequestDetails)
  : M X ResolvedBlock :=
  let lookup id :=
    do body <- getBlock id;
    match body with
    | Some block => ret (Pinned block)
    | None => throw RESOURCE_NOT_FOUND
    end in
  match specifier with
  | Number n => lookup (pretty n)
  | Hash h => lookup h
  | Tag earliest => lookup (pretty 0%N)
  | Tag _ => ret Unbounded
  end.

(** The identity a specifier is looked up by, if it is looked up. *)
Definition lookupId (specifier : BlockSpecifier) : option string :=
  match specifier with
  | Number n => Some (pretty n)
  | Hash h => Some h
  | Tag earliest => Some (pretty 0%N)
  | Tag _ => None
  end.

(** Modelled from the spec: the state query of section 4.2 step 2 and
    section 6, whose source file is missing.  The upper timestamp bound is
    a filter only for a pinned block, the slot is the caller's string,
    newest first, at most 100 entries. *)
Definition stateQuery (address slot : string) (block : ResolvedBlock) : string :=
  "contracts/" +:+ address +:+ "/state?" +:+
  match block with
  | Pinned b => "timestamp=" +:+ timestampTo b +:+ "&"
  | Unbounded => ""
  end +:+
  "slot=" +:+ slot +:+ "&limit=100&order=desc".

(** Modelled from the spec: [getStorageAt] of section 4.2, whose source
    file is missing.  Resolve the block and propagate its failure without
    querying; query the state; a 404 and an empty list give the zero
    value, otherwise the first entry's value is returned as it is. *)
Definition getStorageAt (address slot : string) (blockSpecifier : BlockSpecifier)
    (requestDetails : RequestDetails) : M X string :=
  do block <- resolve blockSpecifier requestDetails;
  do response <- getContractState (stateQuery address slot block);
  match response with
  | NotFound404 => ret ZERO_HEX_32_BYTE
  | Ok200 [] => ret ZERO_HEX_32_BYTE
  | Ok200 (entry :: _) => ret (value entry)
  end.
End Eth.
End Eth.

(** ** The singleton of the configuration service

    The static side of [ConfigService] in
    [config-service/src/services/index.ts]: the private constructor,
    [getInstance] and the public static [get]. *)
Module Singleton.
Import ConfigService.

(** What the constructor imports from [find-config], [dotenv],
    [./validationService] and [./loggerService]: parameters.
    [ValidationService.typeCasting] answers an object, given here by its
    entries in the order [for ... in] enumerates them. *)
Class StartUp := {
  findConfig : string → option string;
  dotenv_config : string → gmap string string → gmap string string;
  ValidationService_startUp : gmap string string → option JsError;
  ValidationService_typeCasting : gmap string string → list (string * JsValue);
  LoggerService_maskUpEnv : string → JsValue → string
}.

(** An instance of the class: its [envs]. *)
Record t := { entries : list (string * JsValue) }.

Definition envs (this : t) : gmap string JsValue := list_to_map (entries this).

(** The state the class works on: [process.env] and the static field
    [ConfigService.instance]. *)
Record Process := {
  process_env : gmap string string;
  instance : option t
}.

Definition gets {A} (f : Process → A) : M Process A := λ p, (Ok (f p), p, []).

Definition set_process_env (env : gmap string string) : M Process unit := λ p,
  (Ok tt, {| process_env := env; instance := instance p |}, []).

Definition set_instance (this : t) : M Process unit := λ p,
  (Ok tt, {| process_env := process_env p; instance := Some this |}, []).

Definition envFileName : string := ".env".

Section Singleton.
Context {globalConfig : GlobalConfig} {startUp : StartUp}.

(** [private constructor()] *)
Definition new_ConfigService : M Process t :=
  let configPath := findConfig envFileName in
  (if bool_decide (default "" configPath ≠ "") then
     do env <- gets process_env;
     set_process_env (dotenv_config (default "" configPath) env)
   else
     effect (LogWarn None
       "No .env file is found. The relay cannot operate without valid .env.")) ;;;
  do env <- gets process_env;
  match ValidationService_startUp env with
  | Some error => throw error
  | None => ret tt
  end ;;;
  let this := {| entries := ValidationService_typeCasting env |} in
  forEach (λ name,
    effect (LogInfo
      (LoggerService_maskUpEnv name (default VUndefined (envs this !! name)))))
    (entries this).*1 ;;;
  validateReadOnlyMode (envs this) ;;;
  ret this.

(** [private static getInstance()] *)
Definition getInstance : M Process t :=
  do current <- gets instance;
  match current with
  | None =>
      do this <- new_ConfigService;
      set_instance this ;;;
      ret this
  | Some this => ret this
  end.

(** [public static get(name)] *)
Definition static_get (name : string) : M Process JsValue :=
  do this <- getInstance;
  get (envs this) name.

(** The lines the constructor prints for the variables of an instance. *)
Definition masked_lines (this : t) : list Effect :=
  (λ name, LogInfo
     (LoggerService_maskUpEnv name (default VUndefined (envs this !! name))))
  <$> (entries this).*1.

(** The process once the constructor has looked for the [.env] file:
    [process.env] is completed by the file when one is found. *)
Definition loaded (p : Process) : Process :=
  if bool_decide (default "" (findConfig envFileName) ≠ "")
  then {| process_env :=
            dotenv_config (default "" (findConfig envFileName)) (process_env p);
          instance := instance p |}
  else p.

(** The instance the constructor builds from a process. *)
Definition cast (p : Process) : t :=
  {| entries := ValidationService_typeCasting (process_env (loaded p)) |}.

(** The messages the constructor may print besides the masked lines. *)
Definition notices : list Effect :=
  [LogWarn None
     "No .env file is found. The relay cannot operate without valid .env.";
   LogInfo "Relay is in READ_ONLY mode. It will not send transactions.";
   read_only_warning "OPERATOR_ID_MAIN";
   read_only_warning "OPERATOR_KEY_MAIN"].

Definition missing_file_warning : list Effect :=
  if bool_decide (default "" (findConfig envFileName) ≠ "") then []
  else [LogWarn None
          "No .env file is found. The relay cannot operate without valid .env."].
End Singleton.
End Singleton.

(** ** Totals of a trace *)

(** The sum of the costs handed to the budget enforcer. *)
Fixpoint forwarded (t : list Effect) : Z :=
  match t with
  | [] => 0
  | AddExpense cost _ _ :: t => cost + forwarded t
  | _ :: t => forwarded t
  end.

(** The sums of the values observed on the cost and on the gas-fee
    histogram. *)
Fixpoint observed_cost (t : list Effect) : Z :=
  match t with
  | [] => 0
  | CostObserve _ _ _ v :: t => v + observed_cost t
  | _ :: t => observed_cost t
  end.

Fixpoint observed_gas (t : list Effect) : Z :=
  match t with
  | [] => 0
  | GasFeeObserve _ _ _ v :: t => v + observed_gas t
  | _ :: t => observed_gas t
  end.

Definition is_UnhandledRejection (e : Effect) : bool :=
  match e with UnhandledRejection _ => true | _ => false end.

Definition is_EthExecutionsInc (e : Effect) : bool :=
  match e with EthExecutionsInc _ => true | _ => false end.



(** ** Vocabulary of the metering properties *)
Section MetricServiceVocabulary.
Context {X : Type} {collaborators : Collaborators X}.

(** The effects in front of the enforcer's call: the ghost mark and the
    debug line, if that level is enabled. *)
Definition preamble (p : IExecuteQueryEventPayload) : list Effect :=
  Emission p ::
  (if logger_isLevelEnabled "debug" then
     [LogDebug
        (formattedRequestId (q_requestDetails p) +:+
         " Capturing transaction fee charged to operator: executionMode=" +:+
         q_executionMode p +:+ " transactionId=" +:+ q_transactionId p +:+
         ", txConstructorName=" +:+ q_txConstructorName p +:+
         ", cost=" +:+ pretty (q_cost p) +:+ " tinybars")]
   else []).

Definition expense (p : IExecuteQueryEventPayload) : Effect :=
  AddExpense (q_cost p) (default "" (q_originalCallerAddress p))
             (q_requestDetails p).

Definition observations (p : IExecuteQueryEventPayload) : list Effect :=
  [CostObserve (q_executionMode p) (q_txConstructorName p) (q_status p) (q_cost p);
   GasFeeObserve (q_executionMode p) (q_txConstructorName p) (q_status p)
                 (q_gasUsed p)].

(** What the enforcer answers to the expense of [p] in the state [x]. *)
Definition enforcer_answer (p : IExecuteQueryEventPayload) (x : X)
  : Result unit * X :=
  hbarLimitService_addExpense (q_cost p) (default "" (q_originalCallerAddress p))
                              (q_requestDetails p) x.

(** The strategy the configuration switch selects. *)
Definition chosen_strategy
  : string → string → string → RequestDetails →
    X → Result ITransactionRecordMetric * X :=
  if GET_RECORD_DEFAULT_TO_CONSENSUS_NODE
  then sdkClient_getTransactionRecordMetrics
  else mirrorNodeClient_getTransactionRecordMetrics.

Definition chosen_call (transactionId txConstructorName operatorAccountId : string)
    (requestDetails : RequestDetails) : Effect :=
  if GET_RECORD_DEFAULT_TO_CONSENSUS_NODE
  then SdkGetTransactionRecordMetrics transactionId txConstructorName
         operatorAccountId requestDetails
  else MirrorGetTransactionRecordMetrics transactionId txConstructorName
         operatorAccountId requestDetails.

(** The two emissions [captureTransactionMetrics] can synthesize from a
    record. *)
Definition fee_emission (payload : IExecuteTransactionEventPayload)
    (m : ITransactionRecordMetric) : IExecuteQueryEventPayload :=
  {| q_executionMode := EXECUTION_MODE.TRANSACTION;
     q_transactionId := tx_transactionId payload;
     q_txConstructorName := tx_txConstructorName payload;
     q_cost := transactionFee m;
     q_gasUsed := gasUsed m;
     q_status := status m;
     q_requestDetails := tx_requestDetails payload;
     q_originalCallerAddress := Some (tx_originalCallerAddress payload) |}.

Definition record_emission (payload : IExecuteTransactionEventPayload)
    (m : ITransactionRecordMetric) : IExecuteQueryEventPayload :=
  {| q_executionMode := EXECUTION_MODE.RECORD;
     q_transactionId := tx_transactionId payload;
     q_txConstructorName := tx_txConstructorName payload;
     q_cost := txRecordChargeAmount m;
     q_gasUsed := 0;
     q_status := status m;
     q_requestDetails := tx_requestDetails payload;
     q_originalCallerAddress := Some (tx_originalCallerAddress payload) |}.

(** The effects the budget enforcer and the two histograms see. *)
Definition observes (e : Effect) : bool :=
  is_AddExpense e || is_CostObserve e || is_GasFeeObserve e.

(** No expense is forwarded and no histogram is touched. *)
Definition silent (t : list Effect) : Prop :=
  Forall (λ e, observes e = false) t.

(** The three metrics every construction registers. *)
Definition costHistogram : Metric :=
  {| metric_kind := HistogramMetric;
     metric_name := "rpc_relay_consensusnode_response";
     metric_help := "Relay consensusnode mode type status cost histogram";
     metric_labelNames := ["mode"; "type"; "status"] |}.

Definition gasFeeHistogram : Metric :=
  {| metric_kind := HistogramMetric;
     metric_name := "rpc_relay_consensusnode_gasfee";
     metric_help := "Relay consensusnode mode type status gas fee histogram";
     metric_labelNames := ["mode"; "type"; "status"] |}.

Definition executionsCounter : Metric :=
  {| metric_kind := CounterMetric;
     metric_name := "rpc_relay_eth_executions";
     metric_help := "Relay rpc_relay_eth_executions function";
     metric_labelNames := ["method"] |}.

(** The registry a construction leaves behind. *)
Definition registered (register : gmap string Metric) : gmap string Metric :=
  <["rpc_relay_eth_executions" := executionsCounter]>
    (<["rpc_relay_consensusnode_gasfee" := gasFeeHistogram]>
       (<["rpc_relay_consensusnode_response" := costHistogram]> register)).

(** The listeners a freshly constructed service has on a new emitter. *)
Definition subscriptions : list EventName :=
  MetricService.on ETH_EXECUTION
    (MetricService.on EXECUTE_QUERY (MetricService.on EXECUTE_TRANSACTION [])).

(** Nothing in the trace carries a zero cost to the enforcer or to the
    cost histogram, and no emission has a zero cost. *)
Definition charged (e : Effect) : Prop :=
  match e with
  | Emission q => q_cost q ≠ 0
  | AddExpense cost _ _ => cost ≠ 0
  | CostObserve _ _ _ cost => cost ≠ 0
  | _ => True
  end.
End MetricServiceVocabulary.

(** ** Concrete collaborators, for evaluating the code on examples *)
Module Fixture.

Definition requestDetails : RequestDetails :=
  {| requestId := "eth_getStorageAtTest"; ipAddress := "0.0.0.0";
     formattedRequestId := "[Request ID: eth_getStorageAtTest]" |}.

Definition record : ITransactionRecordMetric :=
  {| gasUsed := 21000; transactionFee := 5000;
     txRecordChargeAmount := 300; status := "SUCCESS" |}.

(** Both record sources answer [record]; the enforcer accepts every
    expense; debug logging is off; records come from the mirror node. *)
Definition healthy : Collaborators unit :=
  {| sdkClient_getTransactionRecordMetrics := λ _ _ _ _ x, (Ok record, x);
     mirrorNodeClient_getTransactionRecordMetrics := λ _ _ _ _ x, (Ok record, x);
     hbarLimitService_addExpense := λ _ _ _ x, (Ok tt, x);
     logger_isLevelEnabled := λ _, false;
     GET_RECORD_DEFAULT_TO_CONSENSUS_NODE := false |}.

(** Records come from the consensus node, which times out; the mirror
    node would have answered. *)
Definition sdk_down : Collaborators unit :=
  {| sdkClient_getTransactionRecordMetrics :=
       λ _ _ _ _ x, (Throw (Error "timeout exceeded"), x);
     mirrorNodeClient_getTransactionRecordMetrics := λ _ _ _ _ x, (Ok record, x);
     hbarLimitService_addExpense := λ _ _ _ x, (Ok tt, x);
     logger_isLevelEnabled := λ _, true;
     GET_RECORD_DEFAULT_TO_CONSENSUS_NODE := true |}.

Definition transaction : IExecuteTransactionEventPayload :=
  {| tx_transactionId := "0.0.902@1684375868.230217103";
     tx_callerName := "eth_sendRawTransaction";
     tx_txConstructorName := "EthereumTransaction";
     tx_operatorAccountId := "0.0.902";
     tx_interactingEntity := "0.0.1022";
     tx_requestDetails := requestDetails;
     tx_originalCallerAddress := "0x05fba803be258049a27b820088bab1cad2058871" |}.

(** A read-only query that was answered for free. *)
Definition free_query : IExecuteQueryEventPayload :=
  {| q_executionMode := EXECUTION_MODE.QUERY;
     q_transactionId := "0.0.902@1684375868.230217103";
     q_txConstructorName := "ContractCallQuery";
     q_cost := 0;
     q_gasUsed := 0;
     q_status := "SUCCESS";
     q_requestDetails := requestDetails;
     q_originalCallerAddress := None |}.

(** A table of entries in which the three settings read by
    [validateReadOnlyMode] are optional. *)
Definition globalConfig : ConfigService.GlobalConfig :=
  {| ConfigService.ENTRIES :=
       <["READ_ONLY" :=
           {| ConfigService.required := false;
              ConfigService.defaultValue := ConfigService.VBool false |}]>
       (<["OPERATOR_ID_MAIN" :=
           {| ConfigService.required := false;
              ConfigService.defaultValue := ConfigService.VNull |}]>
       (<["OPERATOR_KEY_MAIN" :=
           {| ConfigService.required := false;
              ConfigService.defaultValue := ConfigService.VNull |}]> ∅));
     ConfigService.Number_toString_16 := λ _, "12a" |}.

(** Read-write mode with an operator id and no operator key. *)
Definition envs_without_key : gmap string ConfigService.JsValue :=
  <["READ_ONLY" := ConfigService.VBool false]>
    (<["OPERATOR_ID_MAIN" := ConfigService.VStr "0.0.2"]> ∅).

(** A mirror node in the manner of the test suite's [restMock]: a table
    from request to answer.  A block that is not in the table has a null
    body, a contract state request that is not in the table a 404. *)
Definition restMock (blocks : gmap string Eth.BlockDescriptor)
    (states : gmap string (list Eth.ContractStateEntry)) : Eth.MirrorNode unit :=
  {| Eth.mirror_getBlock := λ url x, (blocks !! url, x);
     Eth.mirror_getContractState := λ url x,
       (match states !! url with
        | Some state => Eth.Ok200 state
        | None => Eth.NotFound404
        end, x) |}.

Definition CONTRACT_ADDRESS_1 : string :=
  "0x000000000000000000000000000000000000055f".

Definition DEFAULT_BLOCK : Eth.BlockDescriptor :=
  {| Eth.number := 3;
     Eth.hash := "0x3c08bbbee74d287b1dcd3f0ca6d1d2cb92c90883c4acf9747de9f3f3162ad25b";
     Eth.timestampFrom := "1651560386.060890949";
     Eth.timestampTo := "1651560389.060890949" |}.

Definition DEFAULT_ENTRY : Eth.ContractStateEntry :=
  {| Eth.slot := "0x0000000000000000000000000000000000000000000000000000000000000101";
     Eth.value := "0x0000000000000000000000000000000000000000000000000000000000000065" |}.

Definition DEFAULT_CURRENT_CONTRACT_STATE : list Eth.ContractStateEntry :=
  [DEFAULT_ENTRY].

Definition BLOCK_HASH : string :=
  "0x3c08bbbee74d287b1dcd3f0ca6d1d2cb92c90883c4acf9747de9f3f3162ad25b".

Definition state_url (query : string) : string :=
  "contracts/0x000000000000000000000000000000000000055f/state?" +:+ query.

(** The mocks of the test suite: block 3 is known by number and by hash;
    at its upper timestamp the contract answers three spellings of slot
    [0x101] with the default entry and the slot [0x...1101] with an empty
    list; without a timestamp it answers the padded slot.  Block 4 is not
    known, and no other state request is. *)
Definition mirror : Eth.MirrorNode unit :=
  restMock
    (<["blocks/3" := DEFAULT_BLOCK]>
     (<["blocks/0x3c08bbbee74d287b1dcd3f0ca6d1d2cb92c90883c4acf9747de9f3f3162ad25b"
          := DEFAULT_BLOCK]> ∅))
    (<[state_url "timestamp=1651560389.060890949&slot=0x101&limit=100&order=desc"
         := DEFAULT_CURRENT_CONTRACT_STATE]>
     (<[state_url "timestamp=1651560389.060890949&slot=0x0000101&limit=100&order=desc"
         := DEFAULT_CURRENT_CONTRACT_STATE]>
     (<[state_url "timestamp=1651560389.060890949&slot=0x0000000000000000000000000000000000000000000000000000000000000101&limit=100&order=desc"
         := DEFAULT_CURRENT_CONTRACT_STATE]>
     (<[state_url "slot=0x0000000000000000000000000000000000000000000000000000000000000101&limit=100&order=desc"
         := DEFAULT_CURRENT_CONTRACT_STATE]>
     (<[state_url "timestamp=1651560389.060890949&slot=0x0000000000000000000000000000000000000000000000000000000000001101&limit=100&order=desc"
         := []]> ∅))))).

(** [ethImpl.getStorageAt] over these mocks. *)
Definition getStorageAt := Eth.getStorageAt (mirrorNode := mirror).
End Fixture.

(** ** Further concrete collaborators *)
Module Sample.

(** A record with nothing to charge, although gas was used. *)
Definition free_record : ITransactionRecordMetric :=
  {| gasUsed := 21000; transactionFee := 0;
     txRecordChargeAmount := 0; status := "SUCCESS" |}.

(** The mirror node answers [free_record]. *)
Definition nothing_to_charge : Collaborators unit :=
  {| sdkClient_getTransactionRecordMetrics :=
       λ _ _ _ _ x, (Throw (Error "timeout exceeded"), x);
     mirrorNodeClient_getTransactionRecordMetrics :=
       λ _ _ _ _ x, (Ok free_record, x);
     hbarLimitService_addExpense := λ _ _ _ x, (Ok tt, x);
     logger_isLevelEnabled := λ _, false;
     GET_RECORD_DEFAULT_TO_CONSENSUS_NODE := false |}.

(** The mirror node answers [Fixture.record]; the budget enforcer rejects
    every expense. *)
Definition enforcer_down : Collaborators unit :=
  {| sdkClient_getTransactionRecordMetrics :=
       λ _ _ _ _ x, (Ok Fixture.record, x);
     mirrorNodeClient_getTransactionRecordMetrics :=
       λ _ _ _ _ x, (Ok Fixture.record, x);
     hbarLimitService_addExpense :=
       λ _ _ _ x, (Throw (Error "Cannot add expense"), x);
     logger_isLevelEnabled := λ _, false;
     GET_RECORD_DEFAULT_TO_CONSENSUS_NODE := false |}.

(** A table of entries in which [READ_ONLY] is required and has no
    default. *)
Definition strictConfig : ConfigService.GlobalConfig :=
  {| ConfigService.ENTRIES :=
       <["READ_ONLY" :=
           {| ConfigService.required := true;
              ConfigService.defaultValue := ConfigService.VNull |}]> ∅;
     ConfigService.Number_toString_16 := λ _, "12a" |}.

(** Read-only mode with an operator id set. *)
Definition envs_read_only : gmap string ConfigService.JsValue :=
  <["READ_ONLY" := ConfigService.VBool true]>
    (<["OPERATOR_ID_MAIN" := ConfigService.VStr "0.0.2"]> ∅).

(** A start-up without [.env] file: the environment is valid, is cast to
    read-only mode with a chain id, and values are printed masked. *)
Definition startUp : Singleton.StartUp :=
  {| Singleton.findConfig := λ _, None;
     Singleton.dotenv_config := λ _ env, env;
     Singleton.ValidationService_startUp := λ _, None;
     Singleton.ValidationService_typeCasting := λ _,
       [("READ_ONLY", ConfigService.VBool true);
        ("CHAIN_ID", ConfigService.VStr "298")];
     Singleton.LoggerService_maskUpEnv := λ name _, name +:+ " = **********" |}.

(** A start-up whose environment fails the first validation. *)
Definition startUp_invalid : Singleton.StartUp :=
  {| Singleton.findConfig := λ _, Some "/app/.env";
     Singleton.dotenv_config := λ _ env, <["CHAIN_ID" := "298"]> env;
     Singleton.ValidationService_startUp := λ _,
       Some (Error "MIRROR_NODE_URL is a mandatory and the relay cannot operate without its value.");
     Singleton.ValidationService_typeCasting := λ _, [];
     Singleton.LoggerService_maskUpEnv := λ name _, name +:+ " = **********" |}.

(** A process that has not asked for a setting yet. *)
Definition fresh : Singleton.Process :=
  {| Singleton.process_env := ∅; Singleton.instance := None |}.

(** The instance [startUp] leads to, and the process that holds it. *)
Definition started_instance : Singleton.t :=
  {| Singleton.entries :=
       [("READ_ONLY", ConfigService.VBool true);
        ("CHAIN_ID", ConfigService.VStr "298")] |}.

Definition started : Singleton.Process :=
  {| Singleton.process_env := ∅; Singleton.instance := Some started_instance |}.
End Sample.

(** * Properties *)

(** ** The metering pipeline *)
Section MetricServiceProperties.
Context {X : Type} {collaborators : Collaborators X}.
Import MetricService.

(** *** Running the methods *)

Lemma trace_run {A} (r : Result A) (x : X) (t : list Effect) :
  trace (r, x, t) = t.
Proof. done. Qed.

Lemma outcome_run {A} (r : Result A) (x : X) (t : list Effect) :
  outcome (r, x, t) = r.
Proof. done. Qed.

Lemma outside_run {A} (r : Result A) (x : X) (t : list Effect) :
  outside (r, x, t) = x.
Proof. done. Qed.

Lemma addExpenseAndCaptureMetrics_resolved p x x1 :
  enforcer_answer p x = (Ok tt, x1) →
  addExpenseAndCaptureMetrics p x =
    (Ok tt, x1, preamble p ++ expense p :: observations p).
Proof.
  unfold enforcer_answer, addExpenseAndCaptureMetrics, preamble, bind, call,
    captureMetrics, effect, ret.
  intros Hans. destruct (logger_isLevelEnabled "debug"); simpl; rewrite Hans; done.
Qed.

Lemma addExpenseAndCaptureMetrics_rejected p x x1 err :
  enforcer_answer p x = (Throw err, x1) →
  addExpenseAndCaptureMetrics p x = (Throw err, x1, preamble p ++ [expense p]).
Proof.
  unfold enforcer_answer, addExpenseAndCaptureMetrics, preamble, bind, call,
    captureMetrics, effect, ret.
  intros Hans. destruct (logger_isLevelEnabled "debug"); simpl; rewrite Hans; done.
Qed.

Lemma getTransactionRecordMetrics_resolved id ctor op rd x m x1 :
  chosen_strategy id ctor op rd x = (Ok m, x1) →
  getTransactionRecordMetrics id ctor op rd x =
    (Ok (Some m), x1, [chosen_call id ctor op rd]).
Proof.
  unfold chosen_strategy, chosen_call, getTransactionRecordMetrics, try_catch,
    bind, call, ret.
  destruct GET_RECORD_DEFAULT_TO_CONSENSUS_NODE; intros ->; done.
Qed.

Lemma getTransactionRecordMetrics_rejected id ctor op rd x err x1 :
  chosen_strategy id ctor op rd x = (Throw err, x1) →
  getTransactionRecordMetrics id ctor op rd x =
    (Ok None, x1,
     [chosen_call id ctor op rd;
      LogWarn (Some err)
        (formattedRequestId rd +:+
         " Could not fetch transaction record: error=" +:+ message err)]).
Proof.
  unfold chosen_strategy, chosen_call, getTransactionRecordMetrics, try_catch,
    bind, call, effect, ret.
  destruct GET_RECORD_DEFAULT_TO_CONSENSUS_NODE; intros ->; done.
Qed.

Lemma preamble_filter p : filter observes (preamble p) = [].
Proof. unfold preamble. destruct (logger_isLevelEnabled "debug"); done. Qed.

Lemma preamble_emissions p : emissions (preamble p) = [p].
Proof. unfold preamble. destruct (logger_isLevelEnabled "debug"); done. Qed.

Lemma emissions_app t1 t2 : emissions (t1 ++ t2) = emissions t1 ++ emissions t2.
Proof. apply omap_app. Qed.

Lemma emissions_addExpenseAndCaptureMetrics p x :
  emissions (trace (addExpenseAndCaptureMetrics p x)) = [p].
Proof.
  destruct (enforcer_answer p x) as [[[]|err] x1] eqn:Hans.
  - rewrite (addExpenseAndCaptureMetrics_resolved _ _ _ Hans).
    by rewrite trace_run, emissions_app, preamble_emissions.
  - rewrite (addExpenseAndCaptureMetrics_rejected _ _ _ _ Hans).
    by rewrite trace_run, emissions_app, preamble_emissions.
Qed.

Lemma charged_addExpenseAndCaptureMetrics p x :
  q_cost p ≠ 0 → Forall charged (trace (addExpenseAndCaptureMetrics p x)).
Proof.
  intros Hcost.
  assert (Forall charged (preamble p)) as Hpre.
  { unfold preamble. destruct (logger_isLevelEnabled "debug");
      repeat constructor; done. }
  destruct (enforcer_answer p x) as [[[]|err] x1] eqn:Hans.
  - rewrite (addExpenseAndCaptureMetrics_resolved _ _ _ Hans).
    apply Forall_app; split; [done|]. repeat constructor; done.
  - rewrite (addExpenseAndCaptureMetrics_rejected _ _ _ _ Hans).
    apply Forall_app; split; [done|]. repeat constructor; done.
Qed.

Lemma bind_run {A B} (m : M X A) (f : A → M X B) x :
  bind m f x =
    match outcome (m x) with
    | Ok a =>
        (outcome (f a (outside (m x))), outside (f a (outside (m x))),
         trace (m x) ++ trace (f a (outside (m x))))
    | Throw err => (Throw err, outside (m x), trace (m x))
    end.
Proof.
  unfold bind, outcome, outside, trace.
  destruct (m x) as [[[a|err] x1] t1]; simpl; [|done].
  by destruct (f a x1) as [[r x2] t2].
Qed.

Lemma getTransactionRecordMetrics_quiet id ctor op rd x :
  emissions (trace (getTransactionRecordMetrics id ctor op rd x)) = [] ∧
  Forall charged (trace (getTransactionRecordMetrics id ctor op rd x)).
Proof.
  destruct (chosen_strategy id ctor op rd x) as [[m|err] x1] eqn:Hcall.
  - rewrite (getTransactionRecordMetrics_resolved _ _ _ _ _ _ _ Hcall).
    unfold chosen_call.
    destruct GET_RECORD_DEFAULT_TO_CONSENSUS_NODE; split; repeat constructor.
  - rewrite (getTransactionRecordMetrics_rejected _ _ _ _ _ _ _ Hcall).
    unfold chosen_call.
    destruct GET_RECORD_DEFAULT_TO_CONSENSUS_NODE; split; repeat constructor.
Qed.

(** The two guarded calls that follow a successful retrieval. *)
Lemma captureTransactionMetrics_retrieved payload x m :
  outcome (getTransactionRecordMetrics (tx_transactionId payload)
             (tx_txConstructorName payload) (tx_operatorAccountId payload)
             (tx_requestDetails payload) x) = Ok (Some m) →
  captureTransactionMetrics payload x =
    bind (getTransactionRecordMetrics (tx_transactionId payload)
            (tx_txConstructorName payload) (tx_operatorAccountId payload)
            (tx_requestDetails payload))
         (λ _,
            (if bool_decide (transactionFee m ≠ 0)
             then addExpenseAndCaptureMetrics (fee_emission payload m)
             else ret tt) ;;;
            (if bool_decide (txRecordChargeAmount m ≠ 0)
             then addExpenseAndCaptureMetrics (record_emission payload m)
             else ret tt)) x.
Proof.
  intros Hget. unfold captureTransactionMetrics. rewrite !(bind_run _ _ x).
  by rewrite Hget.
Qed.

(** On the emitter of a fresh service an event runs its one listener. *)
Lemma emit_subscriptions ev x : emit subscriptions ev x = listener ev x.
Proof.
  unfold subscriptions, on; simpl.
  destruct ev; simpl; unfold bind, ret;
    match goal with |- context [?f ?a x] =>
      destruct (f a x) as [[[[]|err] x1] t]
    end; simpl; by rewrite ?app_nil_r.
Qed.

(** *** Claims *)

(** C8, amended. Every emission handed to [addExpenseAndCaptureMetrics] is
    forwarded to the budget enforcer once, with its cost, with the original
    caller address or the empty string when there is none, and with its
    request details.  The method settles as that call does.  When the call
    resolves, the cost is then observed once on the cost histogram and the
    gas once on the gas-fee histogram, both under the labels (executionMode,
    txConstructorName, status); when the call rejects, nothing is observed.
    Nothing else reaches the enforcer or the histograms. *)
Theorem addExpenseAndCaptureMetrics_forwards_then_observes p x :
  filter is_AddExpense (trace (addExpenseAndCaptureMetrics p x)) =
    [AddExpense (q_cost p) (default "" (q_originalCallerAddress p))
                (q_requestDetails p)] ∧
  outcome (addExpenseAndCaptureMetrics p x) =
    (hbarLimitService_addExpense (q_cost p) (default "" (q_originalCallerAddress p))
       (q_requestDetails p) x).1 ∧
  filter observes (trace (addExpenseAndCaptureMetrics p x)) =
    AddExpense (q_cost p) (default "" (q_originalCallerAddress p))
               (q_requestDetails p) ::
    match (hbarLimitService_addExpense (q_cost p)
             (default "" (q_originalCallerAddress p)) (q_requestDetails p) x).1 with
    | Ok _ =>
        [CostObserve (q_executionMode p) (q_txConstructorName p) (q_status p)
                     (q_cost p);
         GasFeeObserve (q_executionMode p) (q_txConstructorName p) (q_status p)
                       (q_gasUsed p)]
    | Throw _ => []
    end.
Proof.
  change (hbarLimitService_addExpense (q_cost p)
            (default "" (q_originalCallerAddress p)) (q_requestDetails p) x)
    with (enforcer_answer p x).
  assert (filter is_AddExpense (preamble p) = []) as Hpre.
  { unfold preamble. by destruct (logger_isLevelEnabled "debug"). }
  destruct (enforcer_answer p x) as [[[]|err] x1] eqn:Hans.
  - rewrite (addExpenseAndCaptureMetrics_resolved _ _ _ Hans).
    rewrite outcome_run, trace_run, !filter_app, Hpre, preamble_filter. done.
  - rewrite (addExpenseAndCaptureMetrics_rejected _ _ _ _ Hans).
    rewrite outcome_run, trace_run, !filter_app, Hpre, preamble_filter. done.
Qed.

(** C7. A call of [getTransactionRecordMetrics] makes one strategy call
    and no more: to the SDK client when the switch is on, to the mirror
    node client when it is off, whatever that call answers. *)
Theorem getTransactionRecordMetrics_one_strategy id ctor op rd x :
  filter is_strategy_call (trace (getTransactionRecordMetrics id ctor op rd x)) =
    [if GET_RECORD_DEFAULT_TO_CONSENSUS_NODE
     then SdkGetTransactionRecordMetrics id ctor op rd
     else MirrorGetTransactionRecordMetrics id ctor op rd].
Proof.
  destruct (chosen_strategy id ctor op rd x) as [[m|err] x1] eqn:Hcall.
  - rewrite (getTransactionRecordMetrics_resolved _ _ _ _ _ _ _ Hcall).
    unfold chosen_call. by destruct GET_RECORD_DEFAULT_TO_CONSENSUS_NODE.
  - rewrite (getTransactionRecordMetrics_rejected _ _ _ _ _ _ _ Hcall).
    unfold chosen_call. by destruct GET_RECORD_DEFAULT_TO_CONSENSUS_NODE.
Qed.

(** C2. When the chosen strategy raises, [getTransactionRecordMetrics]
    catches the failure, logs one warning that carries the error and starts
    with the request's correlation prefix, and resolves to [undefined];
    [captureTransactionMetrics] then completes without raising, forwards no
    expense and observes no histogram. *)
Theorem captureTransactionMetrics_survives_retrieval_failure payload x err x1 :
  chosen_strategy (tx_transactionId payload) (tx_txConstructorName payload)
    (tx_operatorAccountId payload) (tx_requestDetails payload) x
    = (Throw err, x1) →
  let warning :=
    LogWarn (Some err)
      (formattedRequestId (tx_requestDetails payload) +:+
       " Could not fetch transaction record: error=" +:+ message err) in
  let attempt :=
    chosen_call (tx_transactionId payload) (tx_txConstructorName payload)
      (tx_operatorAccountId payload) (tx_requestDetails payload) in
  getTransactionRecordMetrics (tx_transactionId payload)
    (tx_txConstructorName payload) (tx_operatorAccountId payload)
    (tx_requestDetails payload) x = (Ok None, x1, [attempt; warning]) ∧
  captureTransactionMetrics payload x = (Ok tt, x1, [attempt; warning]) ∧
  silent (trace (captureTransactionMetrics payload x)).
Proof.
  intros Hcall warning attempt.
  pose proof (getTransactionRecordMetrics_rejected _ _ _ _ _ _ _ Hcall) as Hget.
  assert (captureTransactionMetrics payload x = (Ok tt, x1, [attempt; warning]))
    as Hrun.
  { unfold captureTransactionMetrics, bind. rewrite Hget. done. }
  split; [done|]. split; [done|]. rewrite Hrun.
  unfold attempt, chosen_call.
  destruct GET_RECORD_DEFAULT_TO_CONSENSUS_NODE; repeat constructor.
Qed.

(** C3, amended. When a record is retrieved, the emissions of
    [captureTransactionMetrics] are, in this order: one with mode
    TRANSACTION, cost [transactionFee] and the retrieved [gasUsed], present
    exactly when [transactionFee] is not zero; then one with mode RECORD,
    cost [txRecordChargeAmount] and gas 0, present exactly when
    [txRecordChargeAmount] is not zero and the fee, if it was forwarded, was
    accepted by the budget enforcer.  The two tests are made one after the
    other, each on its own amount, and a rejected fee ends the method before
    the second. *)
Theorem captureTransactionMetrics_two_components payload x m :
  outcome (getTransactionRecordMetrics (tx_transactionId payload)
             (tx_txConstructorName payload) (tx_operatorAccountId payload)
             (tx_requestDetails payload) x) = Ok (Some m) →
  emissions (trace (captureTransactionMetrics payload x)) =
    (if bool_decide (transactionFee m ≠ 0) then
       [{| q_executionMode := EXECUTION_MODE.TRANSACTION;
           q_transactionId := tx_transactionId payload;
           q_txConstructorName := tx_txConstructorName payload;
           q_cost := transactionFee m;
           q_gasUsed := gasUsed m;
           q_status := status m;
           q_requestDetails := tx_requestDetails payload;
           q_originalCallerAddress := Some (tx_originalCallerAddress payload) |}]
     else []) ++
    (if bool_decide (txRecordChargeAmount m ≠ 0) &&
        (bool_decide (transactionFee m = 0) ||
         is_Ok (hbarLimitService_addExpense (transactionFee m)
                  (tx_originalCallerAddress payload) (tx_requestDetails payload)
                  (outside (getTransactionRecordMetrics (tx_transactionId payload)
                              (tx_txConstructorName payload)
                              (tx_operatorAccountId payload)
                              (tx_requestDetails payload) x))).1)
     then
       [{| q_executionMode := EXECUTION_MODE.RECORD;
           q_transactionId := tx_transactionId payload;
           q_txConstructorName := tx_txConstructorName payload;
           q_cost := txRecordChargeAmount m;
           q_gasUsed := 0;
           q_status := status m;
           q_requestDetails := tx_requestDetails payload;
           q_originalCallerAddress := Some (tx_originalCallerAddress payload) |}]
     else []).
Proof.
  intros Hget. rewrite (captureTransactionMetrics_retrieved _ _ _ Hget).
  fold (fee_emission payload m) (record_emission payload m).
  rewrite bind_run, Hget.
  rewrite trace_run, emissions_app.
  rewrite (proj1 (getTransactionRecordMetrics_quiet _ _ _ _ _)); simpl app.
  set (x1 := outside _).
  change (hbarLimitService_addExpense (transactionFee m)
            (tx_originalCallerAddress payload) (tx_requestDetails payload) x1)
    with (enforcer_answer (fee_emission payload m) x1).
  clearbody x1.
  rewrite bind_run.
  assert (∀ y, emissions
            (trace ((if bool_decide (txRecordChargeAmount m ≠ 0)
                     then addExpenseAndCaptureMetrics (record_emission payload m)
                     else ret tt) y)) =
          if bool_decide (txRecordChargeAmount m ≠ 0)
          then [record_emission payload m] else []) as Hrecord.
  { intros y. destruct (bool_decide (txRecordChargeAmount m ≠ 0)); [|done].
    apply emissions_addExpenseAndCaptureMetrics. }
  destruct (bool_decide (transactionFee m ≠ 0)) eqn:Hfee.
  - apply bool_decide_eq_true in Hfee.
    rewrite (bool_decide_eq_false_2 (transactionFee m = 0)) by done.
    destruct (enforcer_answer (fee_emission payload m) x1) as [[[]|err] x2] eqn:Hans.
    + rewrite (addExpenseAndCaptureMetrics_resolved _ _ _ Hans).
      rewrite outcome_run, outside_run, !trace_run, !emissions_app.
      rewrite preamble_emissions, Hrecord. simpl.
      by destruct (bool_decide (txRecordChargeAmount m ≠ 0)).
    + rewrite (addExpenseAndCaptureMetrics_rejected _ _ _ _ Hans).
      rewrite outcome_run, !trace_run, !emissions_app, preamble_emissions.
      simpl. by rewrite andb_false_r.
  - apply bool_decide_eq_false in Hfee. apply dec_stable in Hfee.
    rewrite (bool_decide_eq_true_2 (transactionFee m = 0)) by done.
    change (ret tt x1) with (Ok tt, x1, @nil Effect).
    rewrite outcome_run, outside_run, !trace_run.
    rewrite emissions_app, Hrecord. simpl. by rewrite andb_true_r.
Qed.

(** C1, amended. [captureTransactionMetrics] never synthesizes an
    emission of cost 0, so nothing it does hands a zero cost to the budget
    enforcer or to the cost histogram; a [QueryExecuted] event published on
    the bus is forwarded to the enforcer as it is, whatever its cost. *)
Theorem zero_cost_filtered_only_when_synthesized :
  (∀ payload x, Forall charged (trace (captureTransactionMetrics payload x))) ∧
  (∀ p x,
     filter is_AddExpense (trace (emit subscriptions (QueryExecuted p) x)) =
       [AddExpense (q_cost p) (default "" (q_originalCallerAddress p))
                   (q_requestDetails p)]).
Proof.
  split.
  - intros payload x. unfold captureTransactionMetrics.
    rewrite bind_run.
    pose proof (getTransactionRecordMetrics_quiet (tx_transactionId payload)
      (tx_txConstructorName payload) (tx_operatorAccountId payload)
      (tx_requestDetails payload) x) as [_ Hget].
    destruct (outcome _) as [[m|]|err]; rewrite trace_run; [| |done].
    + apply Forall_app; split; [done|].
      set (x1 := outside _). clearbody x1.
      rewrite bind_run.
      assert (∀ (b : bool) q y, (b = true → q_cost q ≠ 0) →
                Forall charged
                  (trace ((if b then addExpenseAndCaptureMetrics q else ret tt) y)))
        as Hguard.
      { intros [] q y Hq; [|constructor].
        apply charged_addExpenseAndCaptureMetrics; auto. }
      destruct (outcome _) as [[]|err]; rewrite trace_run.
      * apply Forall_app; split; apply Hguard; intros Hb;
          apply bool_decide_eq_true in Hb; exact Hb.
      * apply Hguard; intros Hb; apply bool_decide_eq_true in Hb; exact Hb.
    + rewrite app_nil_r. done.
  - intros p x. rewrite emit_subscriptions. simpl.
    unfold floating, try_catch.
    destruct (enforcer_answer p x) as [[[]|err] x1] eqn:Hans.
    + rewrite (addExpenseAndCaptureMetrics_resolved _ _ _ Hans).
      rewrite trace_run. unfold preamble.
      by destruct (logger_isLevelEnabled "debug").
    + rewrite (addExpenseAndCaptureMetrics_rejected _ _ _ _ Hans).
      unfold effect. rewrite trace_run. unfold preamble.
      by destruct (logger_isLevelEnabled "debug").
Qed.
End MetricServiceProperties.

(** ** Construction and the metrics registry *)
Section RegistryProperties.
Context {X : Type}.
Import MetricService.

Lemma initCostMetric_run (register : gmap string Metric) (x : X) :
  initCostMetric register x =
    (Ok (costHistogram, <[metric_name costHistogram := costHistogram]> register), x,
     [RemoveSingleMetric (metric_name costHistogram); RegisterMetric costHistogram]).
Proof.
  unfold initCostMetric, new_Histogram, Registry.removeSingleMetric,
    Registry.registerMetric, bind, effect, ret.
  simpl. rewrite lookup_delete_eq. simpl. by rewrite insert_delete_eq.
Qed.

Lemma initGasMetric_run (register : gmap string Metric) (x : X) :
  initGasMetric register x =
    (Ok (gasFeeHistogram,
         <[metric_name gasFeeHistogram := gasFeeHistogram]> register), x,
     [RemoveSingleMetric (metric_name gasFeeHistogram);
      RegisterMetric gasFeeHistogram]).
Proof.
  unfold initGasMetric, new_Histogram, Registry.removeSingleMetric,
    Registry.registerMetric, bind, effect, ret.
  simpl. rewrite lookup_delete_eq. simpl. by rewrite insert_delete_eq.
Qed.

Lemma initEthCounter_run (register : gmap string Metric) (x : X) :
  initEthCounter register x =
    (Ok (executionsCounter,
         <[metric_name executionsCounter := executionsCounter]> register), x,
     [RemoveSingleMetric (metric_name executionsCounter);
      RegisterMetric executionsCounter]).
Proof.
  unfold initEthCounter, new_Counter, Registry.removeSingleMetric,
    Registry.registerMetric, bind, effect, ret.
  simpl. rewrite lookup_delete_eq. simpl. by rewrite insert_delete_eq.
Qed.

Lemma constructor_run (register : gmap string Metric)
    (eventEmitter : list EventName) (x : X) :
  constructor register eventEmitter x =
    (Ok ({| consensusNodeClientHistogramCost := costHistogram;
            consensusNodeClientHistogramGasFee := gasFeeHistogram;
            ethExecutionsCounter := executionsCounter |},
         registered register,
         eventEmitter ++ [EXECUTE_TRANSACTION] ++ [EXECUTE_QUERY] ++ [ETH_EXECUTION]),
     x,
     [RemoveSingleMetric "rpc_relay_consensusnode_response";
      RegisterMetric costHistogram;
      RemoveSingleMetric "rpc_relay_consensusnode_gasfee";
      RegisterMetric gasFeeHistogram;
      RemoveSingleMetric "rpc_relay_eth_executions";
      RegisterMetric executionsCounter]).
Proof.
  unfold constructor, bind at 1. rewrite initCostMetric_run.
  unfold bind at 1. rewrite initGasMetric_run.
  unfold bind at 1. rewrite initEthCounter_run.
  unfold ret, on, registered. simpl. by rewrite <- !app_assoc.
Qed.

Lemma registered_idempotent (register : gmap string Metric) :
  registered (registered register) = registered register.
Proof.
  apply map_eq; intros name. unfold registered.
  rewrite !lookup_insert. repeat case_decide; done.
Qed.

(** C10. Whatever the registry holds, construction succeeds: each of the
    three names is removed just before its metric is registered, so that no
    registration meets a taken name.  Afterwards each name maps to the
    metric built by this construction, every other name is as before, and a
    second construction on the resulting registry leaves the same
    registry. *)
Theorem constructor_reregisters (register : gmap string Metric)
    (eventEmitter : list EventName) (x : X) :
  ∃ service eventEmitter1,
    constructor register eventEmitter x =
      (Ok (service, registered register, eventEmitter1), x,
       [RemoveSingleMetric "rpc_relay_consensusnode_response";
        RegisterMetric costHistogram;
        RemoveSingleMetric "rpc_relay_consensusnode_gasfee";
        RegisterMetric gasFeeHistogram;
        RemoveSingleMetric "rpc_relay_eth_executions";
        RegisterMetric executionsCounter]) ∧
    registered register !! "rpc_relay_consensusnode_response" = Some costHistogram ∧
    registered register !! "rpc_relay_consensusnode_gasfee" = Some gasFeeHistogram ∧
    registered register !! "rpc_relay_eth_executions" = Some executionsCounter ∧
    (∀ name,
       name ∉ ["rpc_relay_consensusnode_response";
               "rpc_relay_consensusnode_gasfee"; "rpc_relay_eth_executions"] →
       registered register !! name = register !! name) ∧
    ∀ x' : X, ∃ service' eventEmitter2,
      outcome (constructor (registered register) eventEmitter1 x') =
        Ok (service', registered register, eventEmitter2).
Proof.
  eexists _, _. split; [apply constructor_run|].
  unfold registered.
  split; [by rewrite !lookup_insert|].
  split; [by rewrite !lookup_insert|].
  split; [by rewrite !lookup_insert|].
  split.
  - intros name Hname. rewrite !lookup_insert.
    repeat case_decide; subst; try done; exfalso; apply Hname; set_solver.
  - intros x'. eexists _, _. rewrite constructor_run.
    unfold outcome; simpl. fold (registered register).
    by rewrite registered_idempotent.
Qed.
End RegistryProperties.

(** ** Start-up validation of the operator credentials *)
Section ConfigServiceProperties.
Context {X : Type} {globalConfig : ConfigService.GlobalConfig}.
Import ConfigService.

Lemma get_optional (envs : gmap string JsValue) (name : string) :
  optional name → name ≠ "CHAIN_ID" →
  get (X := X) envs name = ret (setting envs name).
Proof.
  unfold optional, get, setting. intros -> Hname.
  rewrite andb_false_r, (bool_decide_eq_false_2 _ Hname). done.
Qed.

Lemma bind_ret {A B} (a : A) (f : A → M X B) x : bind (ret a) f x = f a x.
Proof. unfold bind, ret. by destruct (f a x) as [[r x1] t]. Qed.

(** C9. With the three settings optional in the table of entries,
    [validateReadOnlyMode] throws exactly when [READ_ONLY] is off and
    [OPERATOR_ID_MAIN] or [OPERATOR_KEY_MAIN] is absent.  When [READ_ONLY]
    is on it returns whatever the credentials are, and does nothing but
    log. *)
Theorem validateReadOnlyMode_aborts_iff (envs : gmap string JsValue) (x : X) :
  optional "READ_ONLY" →
  optional "OPERATOR_ID_MAIN" →
  optional "OPERATOR_KEY_MAIN" →
  (is_Ok (outcome (validateReadOnlyMode envs x)) = false ↔
     readOnly envs = false ∧
     (absent envs "OPERATOR_ID_MAIN" ∨ absent envs "OPERATOR_KEY_MAIN")) ∧
  (readOnly envs = true →
     outcome (validateReadOnlyMode envs x) = Ok tt ∧
     forallb is_log (trace (validateReadOnlyMode envs x)) = true).
Proof.
  intros Hro Hid Hkey.
  unfold validateReadOnlyMode, readOnly, absent. cbn [forEach].
  rewrite !get_optional by done.
  rewrite bind_ret.
  destruct (truthy (setting envs "READ_ONLY")).
  - unfold bind, effect, ret.
    destruct (truthy (setting envs "OPERATOR_ID_MAIN")),
      (truthy (setting envs "OPERATOR_KEY_MAIN")); simpl;
      (split; [split; [done | by intros [? _]] | done]).
  - unfold bind, throw, ret.
    destruct (truthy (setting envs "OPERATOR_ID_MAIN")),
      (truthy (setting envs "OPERATOR_KEY_MAIN")); simpl;
      (split; [split; [try done; auto | try done; intros [_ [?|?]]; done]
              | done]).
Qed.
End ConfigServiceProperties.

(** ** The storage query engine *)
Section EthProperties.
Context {X : Type} {mirrorNode : Eth.MirrorNode X}.
Import Eth.

Lemma length_append (s t : string) :
  String.length (s +:+ t) = (String.length s + String.length t)%nat.
Proof. induction s as [|c s IH]; simpl; [done | by rewrite IH]. Qed.

Lemma append_cancel_r (s1 s2 t : string) : s1 +:+ t = s2 +:+ t → s1 = s2.
Proof.
  revert s2. induction s1 as [|c s1 IH]; intros [|d s2] Heq.
  - done.
  - apply (f_equal String.length) in Heq.
    rewrite !length_append in Heq. simpl in Heq. lia.
  - apply (f_equal String.length) in Heq.
    rewrite !length_append in Heq. simpl in Heq. lia.
  - change (String c (s1 +:+ t) = String d (s2 +:+ t)) in Heq.
    injection Heq as -> Heq. f_equal. by apply IH.
Qed.

Lemma stateQuery_inj address block : Inj (=) (=) (λ slot, stateQuery address slot block).
Proof.
  intros s1 s2. unfold stateQuery. intros Heq.
  repeat (apply String.app_inj in Heq).
  by apply append_cancel_r in Heq.
Qed.

(** The resolver looks a block up at most once, and fails exactly on a
    null body. *)
Lemma resolve_run specifier rd x :
  resolve specifier rd x =
    match lookupId specifier with
    | None => (Ok Unbounded, x, [])
    | Some id =>
        match mirror_getBlock ("blocks/" +:+ id) x with
        | (Some block, x1) => (Ok (Pinned block), x1, [MirrorGet ("blocks/" +:+ id)])
        | (None, x1) => (Throw RESOURCE_NOT_FOUND, x1, [MirrorGet ("blocks/" +:+ id)])
        end
    end.
Proof.
  assert (∀ id,
    bind (getBlock id)
         (λ body, match body with
                  | Some block => ret (Pinned block)
                  | None => throw RESOURCE_NOT_FOUND
                  end) x =
    match mirror_getBlock ("blocks/" +:+ id) x with
    | (Some block, x1) => (Ok (Pinned block), x1, [MirrorGet ("blocks/" +:+ id)])
    | (None, x1) => (Throw RESOURCE_NOT_FOUND, x1, [MirrorGet ("blocks/" +:+ id)])
    end) as Hlookup.
  { intros id. unfold bind, getBlock, ret, throw.
    by destruct (mirror_getBlock ("blocks/" +:+ id) x) as [[block|] x1]. }
  destruct specifier as [n|h|[]]; simpl; try done; apply Hlookup.
Qed.

Lemma getStorageAt_resolved address slot specifier rd x block x1 t :
  resolve specifier rd x = (Ok block, x1, t) →
  getStorageAt address slot specifier rd x =
    (Ok match (mirror_getContractState (stateQuery address slot block) x1).1 with
        | NotFound404 | Ok200 [] => ZERO_HEX_32_BYTE
        | Ok200 (entry :: _) => value entry
        end,
     (mirror_getContractState (stateQuery address slot block) x1).2,
     t ++ [MirrorGet (stateQuery address slot block)]).
Proof.
  intros Hres. unfold getStorageAt, bind at 1. rewrite Hres.
  unfold bind, getContractState, ret.
  by destruct (mirror_getContractState _ x1) as [[|[|entry rest]] x2].
Qed.

Lemma getStorageAt_unresolved address slot specifier rd x err x1 t :
  resolve specifier rd x = (Throw err, x1, t) →
  getStorageAt address slot specifier rd x = (Throw err, x1, t).
Proof. intros Hres. unfold getStorageAt, bind at 1. by rewrite Hres. Qed.

(** C4. A block lookup that answers a null body makes [getStorageAt]
    fail with [RESOURCE_NOT_FOUND] after that one request, the state of the
    contract is not queried; and [getStorageAt] fails only if the
    resolution of the block fails, with the resolver's error, which is
    [RESOURCE_NOT_FOUND]. *)
Theorem getStorageAt_RESOURCE_NOT_FOUND address slot specifier rd x :
  (∀ id, lookupId specifier = Some id →
     (mirror_getBlock ("blocks/" +:+ id) x).1 = None →
     outcome (getStorageAt address slot specifier rd x) = Throw RESOURCE_NOT_FOUND ∧
     trace (getStorageAt address slot specifier rd x) = [MirrorGet ("blocks/" +:+ id)]) ∧
  (∀ err, outcome (getStorageAt address slot specifier rd x) = Throw err →
     err = RESOURCE_NOT_FOUND ∧
     outcome (resolve specifier rd x) = Throw RESOURCE_NOT_FOUND ∧
     filter is_MirrorGet (trace (getStorageAt address slot specifier rd x)) =
       filter is_MirrorGet (trace (resolve specifier rd x))).
Proof.
  split.
  - intros id Hid Hnull.
    assert (resolve specifier rd x =
              (Throw RESOURCE_NOT_FOUND, (mirror_getBlock ("blocks/" +:+ id) x).2,
               [MirrorGet ("blocks/" +:+ id)])) as Hres.
    { rewrite resolve_run, Hid.
      destruct (mirror_getBlock ("blocks/" +:+ id) x) as [[block|] x1];
        simpl in *; done. }
    by rewrite (getStorageAt_unresolved _ _ _ _ _ _ _ _ Hres).
  - intros err.
    destruct (resolve specifier rd x) as [[[block|err'] x1] t] eqn:Hres.
    + by rewrite (getStorageAt_resolved _ _ _ _ _ _ _ _ Hres).
    + rewrite (getStorageAt_unresolved _ _ _ _ _ _ _ _ Hres).
      unfold outcome; simpl. intros [= ->].
      assert (err = RESOURCE_NOT_FOUND) as ->; [|done].
      rewrite resolve_run in Hres.
      destruct (lookupId specifier) as [id|]; [|done].
      destruct (mirror_getBlock ("blocks/" +:+ id) x) as [[block|] x2];
        congruence.
Qed.

(** C5. Once the block is resolved, a 404 of the state endpoint and a 200
    with an empty list both make [getStorageAt] return the same string, the
    zero value: [0x] followed by 64 zero digits. *)
Theorem getStorageAt_zero_value address slot specifier rd x block x1 t :
  resolve specifier rd x = (Ok block, x1, t) →
  (mirror_getContractState (stateQuery address slot block) x1).1 = NotFound404 ∨
  (mirror_getContractState (stateQuery address slot block) x1).1 = Ok200 [] →
  outcome (getStorageAt address slot specifier rd x) = Ok ZERO_HEX_32_BYTE ∧
  ZERO_HEX_32_BYTE = "0x" +:+ String.concat "" (replicate 64 "0").
Proof.
  intros Hres Hstate. rewrite (getStorageAt_resolved _ _ _ _ _ _ _ _ Hres).
  split; [|done]. unfold outcome; simpl. by destruct Hstate as [-> | ->].
Qed.

(** C6. Once the block is resolved, the one state request that
    [getStorageAt] makes carries the slot as the caller wrote it, so that
    two spellings of a slot give two different requests; and when the
    answer holds an entry, the result is the [value] of the first entry, as
    it is. *)
Theorem getStorageAt_slot_pass_through address slot specifier rd x block x1 t :
  resolve specifier rd x = (Ok block, x1, t) →
  trace (getStorageAt address slot specifier rd x) =
    t ++ [MirrorGet
            ("contracts/" +:+ address +:+ "/state?" +:+
             match block with
             | Pinned b => "timestamp=" +:+ timestampTo b +:+ "&"
             | Unbounded => ""
             end +:+ "slot=" +:+ slot +:+ "&limit=100&order=desc")] ∧
  (∀ slot', slot' ≠ slot →
     stateQuery address slot' block ≠ stateQuery address slot block) ∧
  (∀ entry rest,
     (mirror_getContractState (stateQuery address slot block) x1).1 =
       Ok200 (entry :: rest) →
     outcome (getStorageAt address slot specifier rd x) = Ok (value entry)).
Proof.
  intros Hres. rewrite (getStorageAt_resolved _ _ _ _ _ _ _ _ Hres).
  split; [done|]. split.
  - intros slot' Hne Heq. by apply (stateQuery_inj address block) in Heq.
  - intros entry rest Hstate. unfold outcome; simpl. by rewrite Hstate.
Qed.
End EthProperties.

(** ** The theorems at work on the concrete collaborators *)

(** C1 as stated fails: a [QueryExecuted] event of cost 0 published on the
    bus of a freshly constructed service reaches the budget enforcer and
    both histograms. *)
Lemma zero_cost_query_reaches_enforcer_and_histograms :
  q_cost Fixture.free_query = 0 ∧
  trace (MetricService.emit (collaborators := Fixture.healthy) subscriptions
           (QueryExecuted Fixture.free_query) tt) =
    [Emission Fixture.free_query;
     AddExpense 0 "" Fixture.requestDetails;
     CostObserve "QUERY" "ContractCallQuery" "SUCCESS" 0;
     GasFeeObserve "QUERY" "ContractCallQuery" "SUCCESS" 0] ∧
  ¬ silent (trace (MetricService.emit (collaborators := Fixture.healthy)
                     subscriptions (QueryExecuted Fixture.free_query) tt)).
Proof.
  split; [reflexivity|]. split; [reflexivity|].
  intros Hsilent. apply Forall_cons in Hsilent as [_ Hsilent].
  apply Forall_cons in Hsilent as [Hexpense _]. discriminate Hexpense.
Qed.

Lemma captureTransactionMetrics_survives_retrieval_failure_witness :
  MetricService.captureTransactionMetrics (collaborators := Fixture.sdk_down)
    Fixture.transaction tt =
    (Ok tt, tt,
     [SdkGetTransactionRecordMetrics "0.0.902@1684375868.230217103"
        "EthereumTransaction" "0.0.902" Fixture.requestDetails;
      LogWarn (Some (Error "timeout exceeded"))
        "[Request ID: eth_getStorageAtTest] Could not fetch transaction record: error=timeout exceeded"]).
Proof.
  apply (captureTransactionMetrics_survives_retrieval_failure
           (collaborators := Fixture.sdk_down)
           Fixture.transaction tt (Error "timeout exceeded") tt).
  reflexivity.
Defined.

(** C3 as stated fails: with a record whose fee and record charge are both
    nonzero and a budget enforcer that rejects the fee, no emission with
    mode RECORD is produced. *)
Lemma rejected_fee_leaves_no_record_emission :
  outcome (MetricService.getTransactionRecordMetrics
             (collaborators := Sample.enforcer_down)
             "0.0.902@1684375868.230217103" "EthereumTransaction" "0.0.902"
             Fixture.requestDetails tt) = Ok (Some Fixture.record) ∧
  txRecordChargeAmount Fixture.record ≠ 0 ∧
  emissions (trace (MetricService.captureTransactionMetrics
                      (collaborators := Sample.enforcer_down)
                      Fixture.transaction tt)) =
    [fee_emission Fixture.transaction Fixture.record] ∧
  Forall (λ q, q_executionMode q ≠ EXECUTION_MODE.RECORD)
    (emissions (trace (MetricService.captureTransactionMetrics
                         (collaborators := Sample.enforcer_down)
                         Fixture.transaction tt))).
Proof.
  split; [reflexivity|]. split; [discriminate|]. split; [reflexivity|].
  repeat constructor. discriminate.
Qed.

Lemma captureTransactionMetrics_two_components_witness :
  emissions (trace (MetricService.captureTransactionMetrics
                      (collaborators := Fixture.healthy) Fixture.transaction tt)) =
    [fee_emission Fixture.transaction Fixture.record;
     record_emission Fixture.transaction Fixture.record].
Proof.
  apply (captureTransactionMetrics_two_components
           (collaborators := Fixture.healthy) Fixture.transaction tt Fixture.record).
  reflexivity.
Defined.

(** C8 as stated fails: when the budget enforcer rejects the expense, the
    emission has been forwarded and neither histogram is observed. *)
Lemma rejected_expense_is_not_observed :
  outcome (MetricService.addExpenseAndCaptureMetrics
             (collaborators := Sample.enforcer_down)
             (fee_emission Fixture.transaction Fixture.record) tt) =
    Throw (Error "Cannot add expense") ∧
  filter is_AddExpense
    (trace (MetricService.addExpenseAndCaptureMetrics
              (collaborators := Sample.enforcer_down)
              (fee_emission Fixture.transaction Fixture.record) tt)) =
    [AddExpense 5000 "0x05fba803be258049a27b820088bab1cad2058871"
                Fixture.requestDetails] ∧
  filter is_CostObserve
    (trace (MetricService.addExpenseAndCaptureMetrics
              (collaborators := Sample.enforcer_down)
              (fee_emission Fixture.transaction Fixture.record) tt)) = [] ∧
  filter is_GasFeeObserve
    (trace (MetricService.addExpenseAndCaptureMetrics
              (collaborators := Sample.enforcer_down)
              (fee_emission Fixture.transaction Fixture.record) tt)) = [].
Proof. repeat split. Qed.

Lemma validateReadOnlyMode_aborts_iff_witness :
  is_Ok (outcome (ConfigService.validateReadOnlyMode
                    (globalConfig := Fixture.globalConfig)
                    Fixture.envs_without_key tt)) = false ↔
  ConfigService.readOnly (globalConfig := Fixture.globalConfig)
    Fixture.envs_without_key = false ∧
  (ConfigService.absent (globalConfig := Fixture.globalConfig)
     Fixture.envs_without_key "OPERATOR_ID_MAIN" ∨
   ConfigService.absent (globalConfig := Fixture.globalConfig)
     Fixture.envs_without_key "OPERATOR_KEY_MAIN").
Proof.
  apply (validateReadOnlyMode_aborts_iff (globalConfig := Fixture.globalConfig)
           Fixture.envs_without_key tt); reflexivity.
Defined.

Lemma getStorageAt_zero_value_witness :
  outcome (Eth.getStorageAt (mirrorNode := Fixture.mirror)
             Fixture.CONTRACT_ADDRESS_1
             "0x0000000000000000000000000000000000000000000000000000000000001101"
             (Eth.Number 3)
             Fixture.requestDetails tt) = Ok Eth.ZERO_HEX_32_BYTE ∧
  outcome (Eth.getStorageAt (mirrorNode := Fixture.mirror)
             Fixture.CONTRACT_ADDRESS_1 "0x2202" (Eth.Number 3)
             Fixture.requestDetails tt) = Ok Eth.ZERO_HEX_32_BYTE.
Proof.
  split.
  - apply (getStorageAt_zero_value (mirrorNode := Fixture.mirror)
             Fixture.CONTRACT_ADDRESS_1
             "0x0000000000000000000000000000000000000000000000000000000000001101"
             (Eth.Number 3)
             Fixture.requestDetails tt (Eth.Pinned Fixture.DEFAULT_BLOCK) tt
             [MirrorGet "blocks/3"]); [reflexivity | right; reflexivity].
  - apply (getStorageAt_zero_value (mirrorNode := Fixture.mirror)
             Fixture.CONTRACT_ADDRESS_1 "0x2202" (Eth.Number 3)
             Fixture.requestDetails tt (Eth.Pinned Fixture.DEFAULT_BLOCK) tt
             [MirrorGet "blocks/3"]); [reflexivity | left; reflexivity].
Defined.

Lemma getStorageAt_slot_pass_through_witness :
  outcome (Eth.getStorageAt (mirrorNode := Fixture.mirror)
             Fixture.CONTRACT_ADDRESS_1 "0x101" (Eth.Number 3)
             Fixture.requestDetails tt) =
    Ok "0x0000000000000000000000000000000000000000000000000000000000000065".
Proof.
  destruct (getStorageAt_slot_pass_through (mirrorNode := Fixture.mirror)
              Fixture.CONTRACT_ADDRESS_1 "0x101" (Eth.Number 3)
              Fixture.requestDetails tt (Eth.Pinned Fixture.DEFAULT_BLOCK) tt
              [MirrorGet "blocks/3"] eq_refl) as (_ & _ & Hfirst).
  apply (Hfirst Fixture.DEFAULT_ENTRY []). reflexivity.
Defined.

Lemma getStorageAt_RESOURCE_NOT_FOUND_witness :
  outcome (Eth.getStorageAt (mirrorNode := Fixture.mirror)
             Fixture.CONTRACT_ADDRESS_1 "0x101" (Eth.Number 4)
             Fixture.requestDetails tt) = Throw Eth.RESOURCE_NOT_FOUND ∧
  trace (Eth.getStorageAt (mirrorNode := Fixture.mirror)
           Fixture.CONTRACT_ADDRESS_1 "0x101" (Eth.Number 4)
           Fixture.requestDetails tt) = [MirrorGet "blocks/4"].
Proof.
  destruct (getStorageAt_RESOURCE_NOT_FOUND (mirrorNode := Fixture.mirror)
              Fixture.CONTRACT_ADDRESS_1 "0x101" (Eth.Number 4)
              Fixture.requestDetails tt) as [Hnull _].
  apply (Hnull "4"); reflexivity.
Defined.

(** ** The cases of [eth_getStorageAt.spec.ts] on the model *)
Section TestSuite.
Import Eth.

Example slot_without_leading_zeroes :
  outcome (Fixture.getStorageAt Fixture.CONTRACT_ADDRESS_1 "0x101" (Number 3)
             Fixture.requestDetails tt) = Ok (value Fixture.DEFAULT_ENTRY).
Proof. reflexivity. Qed.

Example slot_with_leading_zeroes :
  outcome (Fixture.getStorageAt Fixture.CONTRACT_ADDRESS_1 "0x0000101" (Number 3)
             Fixture.requestDetails tt) = Ok (value Fixture.DEFAULT_ENTRY).
Proof. reflexivity. Qed.

Example slot_padded_by_block_hash :
  outcome (Fixture.getStorageAt Fixture.CONTRACT_ADDRESS_1
             (slot Fixture.DEFAULT_ENTRY) (Hash Fixture.BLOCK_HASH)
             Fixture.requestDetails tt) = Ok (value Fixture.DEFAULT_ENTRY).
Proof. reflexivity. Qed.

Example slot_at_latest_safe_finalized :
  Forall (λ tag,
    Fixture.getStorageAt Fixture.CONTRACT_ADDRESS_1 (slot Fixture.DEFAULT_ENTRY)
      (Tag tag) Fixture.requestDetails tt =
    (Ok (value Fixture.DEFAULT_ENTRY), tt,
     [MirrorGet (Fixture.state_url
        "slot=0x0000000000000000000000000000000000000000000000000000000000000101&limit=100&order=desc")]))
    [latest; safe; finalized].
Proof. repeat constructor. Qed.

Example block_not_found :
  outcome (Fixture.getStorageAt Fixture.CONTRACT_ADDRESS_1 (slot Fixture.DEFAULT_ENTRY)
             (Number 4) Fixture.requestDetails tt) = Throw RESOURCE_NOT_FOUND.
Proof. reflexivity. Qed.

Example wrong_slot :
  outcome (Fixture.getStorageAt Fixture.CONTRACT_ADDRESS_1
             "0x0000000000000000000000000000000000000000000000000000000000001101"
             (Number 3) Fixture.requestDetails tt) = Ok ZERO_HEX_32_BYTE.
Proof. reflexivity. Qed.

Example address_not_found :
  outcome (Fixture.getStorageAt "0x0000000000000000000000000000000000000560"
             (slot Fixture.DEFAULT_ENTRY) (Number 3)
             Fixture.requestDetails tt) = Ok ZERO_HEX_32_BYTE.
Proof. reflexivity. Qed.
End TestSuite.

(** ** More on the metering pipeline *)
Section MetricServiceFurther.
Context {X : Type} {collaborators : Collaborators X}.
Import MetricService.

(** A guarded call of [captureTransactionMetrics], by the answer of the
    enforcer. *)
Lemma guarded_run (b : bool) q (y : X) :
  (if b then addExpenseAndCaptureMetrics q else ret tt) y =
    if b then
      match enforcer_answer q y with
      | (Ok _, y1) => (Ok tt, y1, preamble q ++ expense q :: observations q)
      | (Throw err, y1) => (Throw err, y1, preamble q ++ [expense q])
      end
    else (Ok tt, y, []).
Proof.
  destruct b; [|done].
  destruct (enforcer_answer q y) as [[[]|err] y1] eqn:Hans.
  - by apply addExpenseAndCaptureMetrics_resolved.
  - by apply addExpenseAndCaptureMetrics_rejected.
Qed.

Lemma captureTransactionMetrics_run payload x :
  captureTransactionMetrics payload x =
    match chosen_strategy (tx_transactionId payload) (tx_txConstructorName payload)
            (tx_operatorAccountId payload) (tx_requestDetails payload) x with
    | (Throw err, x1) =>
        (Ok tt, x1,
         [chosen_call (tx_transactionId payload) (tx_txConstructorName payload)
            (tx_operatorAccountId payload) (tx_requestDetails payload);
          LogWarn (Some err)
            (formattedRequestId (tx_requestDetails payload) +:+
             " Could not fetch transaction record: error=" +:+ message err)])
    | (Ok m, x1) =>
        let fee :=
          (if bool_decide (transactionFee m ≠ 0)
           then addExpenseAndCaptureMetrics (fee_emission payload m)
           else ret tt) x1 in
        match outcome fee with
        | Throw err =>
            (Throw err, outside fee,
             chosen_call (tx_transactionId payload) (tx_txConstructorName payload)
               (tx_operatorAccountId payload) (tx_requestDetails payload)
             :: trace fee)
        | Ok _ =>
            let charge :=
              (if bool_decide (txRecordChargeAmount m ≠ 0)
               then addExpenseAndCaptureMetrics (record_emission payload m)
               else ret tt) (outside fee) in
            (outcome charge, outside charge,
             chosen_call (tx_transactionId payload) (tx_txConstructorName payload)
               (tx_operatorAccountId payload) (tx_requestDetails payload)
             :: trace fee ++ trace charge)
        end
    end.
Proof.
  destruct (chosen_strategy _ _ _ _ x) as [[m|err] x1] eqn:Hcall.
  - unfold captureTransactionMetrics, bind at 1.
    rewrite (getTransactionRecordMetrics_resolved _ _ _ _ _ _ _ Hcall).
    fold (fee_emission payload m) (record_emission payload m).
    unfold bind, outcome, outside, trace.
    destruct ((if bool_decide (transactionFee m ≠ 0)
               then addExpenseAndCaptureMetrics (fee_emission payload m)
               else ret tt) x1) as [[[[]|err] x2] t1]; simpl; [|done].
    by destruct ((if bool_decide (txRecordChargeAmount m ≠ 0)
                  then addExpenseAndCaptureMetrics (record_emission payload m)
                  else ret tt) x2) as [[r x3] t2].
  - unfold captureTransactionMetrics, bind.
    by rewrite (getTransactionRecordMetrics_rejected _ _ _ _ _ _ _ Hcall).
Qed.

Lemma forwarded_app t1 t2 : forwarded (t1 ++ t2) = forwarded t1 + forwarded t2.
Proof. induction t1 as [|[] t1 IH]; simpl; lia. Qed.

Lemma observed_cost_app t1 t2 :
  observed_cost (t1 ++ t2) = observed_cost t1 + observed_cost t2.
Proof. induction t1 as [|[] t1 IH]; simpl; lia. Qed.

Lemma observed_gas_app t1 t2 :
  observed_gas (t1 ++ t2) = observed_gas t1 + observed_gas t2.
Proof. induction t1 as [|[] t1 IH]; simpl; lia. Qed.

Lemma preamble_totals q :
  forwarded (preamble q) = 0 ∧ observed_cost (preamble q) = 0 ∧
  observed_gas (preamble q) = 0.
Proof. unfold preamble. by destruct (logger_isLevelEnabled "debug"). Qed.

(** The totals of a guarded call that resolved. *)
Lemma guarded_totals (b : bool) q (y : X) :
  outcome ((if b then addExpenseAndCaptureMetrics q else ret tt) y) = Ok tt →
  forwarded (trace ((if b then addExpenseAndCaptureMetrics q else ret tt) y)) =
    (if b then q_cost q else 0) ∧
  observed_cost (trace ((if b then addExpenseAndCaptureMetrics q else ret tt) y)) =
    (if b then q_cost q else 0) ∧
  observed_gas (trace ((if b then addExpenseAndCaptureMetrics q else ret tt) y)) =
    (if b then q_gasUsed q else 0).
Proof.
  rewrite guarded_run. destruct b; [|done].
  destruct (enforcer_answer q y) as [[[]|err] y1]; [|done]. intros _.
  rewrite trace_run, forwarded_app, observed_cost_app, observed_gas_app.
  destruct (preamble_totals q) as (-> & -> & ->). simpl. lia.
Qed.

(** Case analysis on a run of [captureTransactionMetrics]: the strategy's
    answer, the two tests, the enforcer's answers, the debug level. *)
Ltac capture_cases payload x :=
  rewrite (captureTransactionMetrics_run payload x);
  destruct (chosen_strategy (tx_transactionId payload)
              (tx_txConstructorName payload) (tx_operatorAccountId payload)
              (tx_requestDetails payload) x) as [[?m|?err] ?x1] eqn:?Hcall;
  [ cbv zeta; rewrite !guarded_run;
    destruct (bool_decide (transactionFee m ≠ 0)) eqn:?Hfee;
    [ destruct (enforcer_answer (fee_emission payload m) x1)
        as [[[]|?err] ?x2] eqn:?Hans1 |];
    rewrite ?outcome_run, ?outside_run, ?trace_run;
    try (destruct (bool_decide (txRecordChargeAmount m ≠ 0)) eqn:?Hcharge;
         [ match goal with
           | |- context [enforcer_answer (record_emission payload m) ?y] =>
               destruct (enforcer_answer (record_emission payload m) y)
                 as [[[]|?err] ?x3] eqn:?Hans2
           end |]);
    rewrite ?outcome_run, ?outside_run, ?trace_run
  | ];
  unfold preamble, chosen_call;
  destruct (logger_isLevelEnabled "debug");
  destruct GET_RECORD_DEFAULT_TO_CONSENSUS_NODE.

(** X2. A retrieved record whose fee and record charge are both 0 ends
    [captureTransactionMetrics] after the retrieval: no emission, no expense,
    no observation, and the gas the record reports is not observed either. *)
Theorem captureTransactionMetrics_nothing_to_charge payload x m x1 :
  chosen_strategy (tx_transactionId payload) (tx_txConstructorName payload)
    (tx_operatorAccountId payload) (tx_requestDetails payload) x = (Ok m, x1) →
  transactionFee m = 0 →
  txRecordChargeAmount m = 0 →
  captureTransactionMetrics payload x =
    (Ok tt, x1,
     [if GET_RECORD_DEFAULT_TO_CONSENSUS_NODE
      then SdkGetTransactionRecordMetrics (tx_transactionId payload)
             (tx_txConstructorName payload) (tx_operatorAccountId payload)
             (tx_requestDetails payload)
      else MirrorGetTransactionRecordMetrics (tx_transactionId payload)
             (tx_txConstructorName payload) (tx_operatorAccountId payload)
             (tx_requestDetails payload)]).
Proof.
  intros Hcall Hfee Hcharge.
  rewrite captureTransactionMetrics_run, Hcall. cbv zeta.
  rewrite !guarded_run.
  rewrite (bool_decide_eq_false_2 (transactionFee m ≠ 0)) by (intros ?; done).
  rewrite (bool_decide_eq_false_2 (txRecordChargeAmount m ≠ 0)) by (intros ?; done).
  done.
Qed.

(** X3. When the budget enforcer rejects the expense of the transaction
    fee, [captureTransactionMetrics] raises that error at once: nothing is
    observed for the fee, and the record charge is neither tested nor
    forwarded. *)
Theorem captureTransactionMetrics_fee_rejected payload x m x1 err x2 :
  chosen_strategy (tx_transactionId payload) (tx_txConstructorName payload)
    (tx_operatorAccountId payload) (tx_requestDetails payload) x = (Ok m, x1) →
  transactionFee m ≠ 0 →
  hbarLimitService_addExpense (transactionFee m) (tx_originalCallerAddress payload)
    (tx_requestDetails payload) x1 = (Throw err, x2) →
  outcome (captureTransactionMetrics payload x) = Throw err ∧
  outside (captureTransactionMetrics payload x) = x2 ∧
  emissions (trace (captureTransactionMetrics payload x)) =
    [fee_emission payload m] ∧
  filter observes (trace (captureTransactionMetrics payload x)) =
    [AddExpense (transactionFee m) (tx_originalCallerAddress payload)
                (tx_requestDetails payload)].
Proof.
  intros Hcall Hfee Hans.
  rewrite captureTransactionMetrics_run, Hcall. cbv zeta.
  assert (enforcer_answer (fee_emission payload m) x1 = (Throw err, x2))
    as Hans' by exact Hans.
  rewrite guarded_run, (bool_decide_eq_true_2 _ Hfee), Hans'.
  rewrite ?outcome_run, ?outside_run, ?trace_run.
  unfold preamble, chosen_call.
  by destruct (logger_isLevelEnabled "debug"),
    GET_RECORD_DEFAULT_TO_CONSENSUS_NODE.
Qed.

(** X4. When a record is retrieved and [captureTransactionMetrics]
    completes, the costs handed to the budget enforcer add up to
    [transactionFee + txRecordChargeAmount], and so do the values observed on
    the cost histogram; the gas observed is the record's [gasUsed] when the
    fee is not 0, and 0 otherwise. *)
Theorem captureTransactionMetrics_totals payload x m :
  outcome (getTransactionRecordMetrics (tx_transactionId payload)
             (tx_txConstructorName payload) (tx_operatorAccountId payload)
             (tx_requestDetails payload) x) = Ok (Some m) →
  outcome (captureTransactionMetrics payload x) = Ok tt →
  forwarded (trace (captureTransactionMetrics payload x)) =
    transactionFee m + txRecordChargeAmount m ∧
  observed_cost (trace (captureTransactionMetrics payload x)) =
    transactionFee m + txRecordChargeAmount m ∧
  observed_gas (trace (captureTransactionMetrics payload x)) =
    if bool_decide (transactionFee m ≠ 0) then gasUsed m else 0.
Proof.
  intros Hget.
  destruct (chosen_strategy (tx_transactionId payload)
              (tx_txConstructorName payload) (tx_operatorAccountId payload)
              (tx_requestDetails payload) x) as [[m'|err] x1] eqn:Hcall.
  2: { rewrite (getTransactionRecordMetrics_rejected _ _ _ _ _ _ _ Hcall) in Hget.
       discriminate Hget. }
  rewrite (getTransactionRecordMetrics_resolved _ _ _ _ _ _ _ Hcall) in Hget.
  injection Hget as ->.
  rewrite captureTransactionMetrics_run, Hcall. cbv zeta.
  set (fee := (if bool_decide (transactionFee m ≠ 0)
               then addExpenseAndCaptureMetrics (fee_emission payload m)
               else ret tt) x1).
  pose proof (guarded_totals (bool_decide (transactionFee m ≠ 0))
                (fee_emission payload m) x1) as Hfee.
  fold fee in Hfee.
  destruct (outcome fee) as [[]|err] eqn:Hout; [|done].
  specialize (Hfee eq_refl) as (Hf1 & Hf2 & Hf3).
  set (charge := (if bool_decide (txRecordChargeAmount m ≠ 0)
                  then addExpenseAndCaptureMetrics (record_emission payload m)
                  else ret tt) (outside fee)).
  pose proof (guarded_totals (bool_decide (txRecordChargeAmount m ≠ 0))
                (record_emission payload m) (outside fee)) as Hcharge.
  fold charge in Hcharge.
  rewrite outcome_run, trace_run. intros Hok.
  specialize (Hcharge Hok) as (Hc1 & Hc2 & Hc3).
  assert (forwarded [chosen_call (tx_transactionId payload)
            (tx_txConstructorName payload) (tx_operatorAccountId payload)
            (tx_requestDetails payload)] = 0 ∧
          observed_cost [chosen_call (tx_transactionId payload)
            (tx_txConstructorName payload) (tx_operatorAccountId payload)
            (tx_requestDetails payload)] = 0 ∧
          observed_gas [chosen_call (tx_transactionId payload)
            (tx_txConstructorName payload) (tx_operatorAccountId payload)
            (tx_requestDetails payload)] = 0) as (Hs1 & Hs2 & Hs3).
  { unfold chosen_call. by destruct GET_RECORD_DEFAULT_TO_CONSENSUS_NODE. }
  change (?e :: ?t1 ++ ?t2) with ([e] ++ t1 ++ t2).
  rewrite !forwarded_app, !observed_cost_app, !observed_gas_app.
  rewrite Hs1, Hs2, Hs3, Hf1, Hf2, Hf3, Hc1, Hc2, Hc3.
  simpl q_cost. simpl q_gasUsed.
  destruct (bool_decide (transactionFee m ≠ 0)) eqn:Hb1,
    (bool_decide (txRecordChargeAmount m ≠ 0)) eqn:Hb2;
    repeat match goal with
    | H : bool_decide (_ ≠ 0) = false |- _ =>
        apply bool_decide_eq_false in H; apply dec_stable in H
    end; repeat split; lia.
Qed.

(** X5. Whatever the collaborators answer, one run of
    [captureTransactionMetrics] asks one strategy once, hands at most two
    expenses to the budget enforcer, observes the two histograms equally
    often and never more often than it forwarded an expense; when the run
    completes, every forwarded expense has its pair of observations. *)
Theorem captureTransactionMetrics_counts payload x :
  let t := trace (captureTransactionMetrics payload x) in
  length (filter is_strategy_call t) = 1%nat ∧
  (length (filter is_AddExpense t) ≤ 2)%nat ∧
  length (filter is_CostObserve t) = length (filter is_GasFeeObserve t) ∧
  (length (filter is_CostObserve t) ≤ length (filter is_AddExpense t))%nat ∧
  (outcome (captureTransactionMetrics payload x) = Ok tt →
   length (filter is_CostObserve t) = length (filter is_AddExpense t)).
Proof.
  cbv zeta. capture_cases payload x; simpl; repeat split; first [lia | done].
Qed.

(** X6. Every expense that [captureTransactionMetrics] forwards is keyed by
    the original caller address of the transaction and carries the request
    details of the transaction: the empty-string key is used only if the
    event itself carries it. *)
Theorem captureTransactionMetrics_keyed_by_caller payload x :
  Forall (λ e, match e with
               | AddExpense _ callerAddress requestDetails =>
                   callerAddress = tx_originalCallerAddress payload ∧
                   requestDetails = tx_requestDetails payload
               | _ => True
               end)
         (trace (captureTransactionMetrics payload x)).
Proof.
  capture_cases payload x; simpl; repeat constructor.
Qed.

Lemma listener_resolves ev (x : X) : outcome (listener ev x) = Ok tt.
Proof.
  destruct ev as [args|args|args]; simpl; [| |done];
    unfold floating, try_catch, outcome.
  - by destruct (captureTransactionMetrics args x) as [[[[]|err] x1] t].
  - by destruct (addExpenseAndCaptureMetrics args x) as [[[[]|err] x1] t].
Qed.

Lemma emit_cons name eventEmitter ev (x : X) :
  emit (name :: eventEmitter) ev x =
    if bool_decide (name = event_name ev) then
      (outcome (emit eventEmitter ev (outside (listener ev x))),
       outside (emit eventEmitter ev (outside (listener ev x))),
       trace (listener ev x) ++ trace (emit eventEmitter ev (outside (listener ev x))))
    else emit eventEmitter ev x.
Proof.
  cbn [emit]. rewrite bind_run. case_bool_decide.
  - by rewrite listener_resolves.
  - unfold ret, outcome, outside, trace. simpl.
    by destruct (emit eventEmitter ev x) as [[r x1] t].
Qed.

(** X7. Publishing an event never raises into the publisher, whatever
    listeners are attached and whatever the collaborators answer: a
    rejection inside a listener stays inside it. *)
Theorem emit_never_raises eventEmitter ev x :
  outcome (emit eventEmitter ev x) = Ok tt.
Proof.
  revert x. induction eventEmitter as [|name eventEmitter IH]; intros x; [done|].
  rewrite emit_cons. case_bool_decide; [|done].
  by rewrite outcome_run.
Qed.

Lemma listener_query_expense p (x : X) :
  filter is_AddExpense (trace (listener (QueryExecuted p) x)) = [expense p].
Proof.
  simpl. unfold floating, try_catch.
  destruct (enforcer_answer p x) as [[[]|err] x1] eqn:Hans.
  - rewrite (addExpenseAndCaptureMetrics_resolved _ _ _ Hans), trace_run.
    unfold preamble. by destruct (logger_isLevelEnabled "debug").
  - rewrite (addExpenseAndCaptureMetrics_rejected _ _ _ _ Hans).
    unfold effect. rewrite trace_run. unfold preamble.
    by destruct (logger_isLevelEnabled "debug").
Qed.

(** X8. A [QueryExecuted] event is forwarded to the budget enforcer once
    per listener attached to EXECUTE_QUERY, also when an earlier listener's
    call was rejected.  The constructor attaches a listener without looking
    for the ones in place: after two constructions on one emitter, one event
    is charged twice. *)
Theorem emit_charges_once_per_listener eventEmitter p x :
  filter is_AddExpense (trace (emit eventEmitter (QueryExecuted p) x)) =
    replicate (length (filter (λ name, name = EXECUTE_QUERY) eventEmitter))
      (AddExpense (q_cost p) (default "" (q_originalCallerAddress p))
                  (q_requestDetails p)) ∧
  ∀ register service1 register1 emitter1 service2 register2 emitter2 (y y' : X),
    outcome (constructor register [] y) = Ok (service1, register1, emitter1) →
    outcome (constructor register1 emitter1 y') = Ok (service2, register2, emitter2) →
    length (filter is_AddExpense (trace (emit emitter2 (QueryExecuted p) x))) = 2%nat.
Proof.
  assert (∀ E y,
    filter is_AddExpense (trace (emit E (QueryExecuted p) y)) =
      replicate (length (filter (λ name, name = EXECUTE_QUERY) E)) (expense p))
    as Hcount.
  { induction E as [|name E IH]; intros y; [done|].
    rewrite emit_cons. simpl event_name. rewrite filter_cons.
    case_bool_decide as Hname.
    - rewrite decide_True by done.
      rewrite trace_run, filter_app, listener_query_expense, IH. done.
    - rewrite decide_False by done. apply IH. }
  split; [apply Hcount|].
  intros register service1 register1 emitter1 service2 register2 emitter2 y y'.
  rewrite !constructor_run, !outcome_run. intros [= _ _ <-] [= _ _ <-].
  by rewrite Hcount.
Qed.

(** X9. An [EthMethodInvoked] event only counts: each listener attached to
    ETH_EXECUTION increments the counter under the label of the method, no
    strategy and no budget enforcer is called, no histogram is observed, and
    the outside state is left as it is. *)
Theorem emit_eth_execution_counts eventEmitter args x :
  emit eventEmitter (EthMethodInvoked args) x =
    (Ok tt, x,
     replicate (length (filter (λ name, name = ETH_EXECUTION) eventEmitter))
       (EthExecutionsInc (eth_method args))).
Proof.
  induction eventEmitter as [|name eventEmitter IH]; [done|].
  rewrite emit_cons. simpl event_name. rewrite filter_cons.
  case_bool_decide as Hname.
  - rewrite decide_True by done. simpl listener. unfold effect.
    rewrite outside_run, trace_run, IH. done.
  - rewrite decide_False by done. apply IH.
Qed.
End MetricServiceFurther.




(** ** More on the configuration service *)
Section ConfigServiceFurther.
Context {X : Type} {globalConfig : ConfigService.GlobalConfig}.
Import ConfigService.

(** [get] by cases: it throws for a missing required setting, and returns
    the setting otherwise, rendered for [CHAIN_ID]. *)
Lemma get_run (envs : gmap string JsValue) (name : string) (x : X) :
  get envs name x =
    (if eq_undefined (setting envs name) &&
        default false (required <$> (ENTRIES !! name))
     then Throw (mandatory_error name)
     else Ok (if bool_decide (name = "CHAIN_ID") &&
                 strict_ne_undefined (setting envs name)
              then VStr ("0x" +:+ Number_toString_16 (setting envs name))
              else setting envs name),
     x, []).
Proof.
  unfold get. fold (setting envs name).
  by destruct (eq_undefined (setting envs name) && _).
Qed.

(** X10. Reading a setting that has an entry, other than [CHAIN_ID]: a
    value of the environment that is neither undefined nor null is returned
    as it is; otherwise the default of the entry is returned as it is, null
    included, unless that default is undefined or null and the entry is
    marked required, in which case the call throws the error that names the
    key.  Nothing is logged and nothing outside is touched. *)
Theorem get_precedence (envs : gmap string JsValue) (name : string)
    (entry : ConfigEntry) (x : X) :
  name ≠ "CHAIN_ID" →
  ENTRIES !! name = Some entry →
  (∀ v, envs !! name = Some v → eq_undefined v = false →
        get envs name x = (Ok v, x, [])) ∧
  (eq_undefined (default VUndefined (envs !! name)) = true →
        get envs name x =
          (if eq_undefined (defaultValue entry) && required entry
           then Throw (Error ("Configuration error: " +:+ name +:+
                              " is a mandatory configuration for relay operation."))
           else Ok (defaultValue entry),
           x, [])).
Proof.
  intros Hname Hentry. rewrite get_run, (bool_decide_eq_false_2 _ Hname).
  unfold setting, mandatory_error. rewrite Hentry. simpl. split.
  - intros v -> Hv. simpl. rewrite Hv. by rewrite Hv.
  - intros ->. by destruct (eq_undefined (defaultValue entry) && required entry).
Qed.


Lemma bind_get {B} (envs : gmap string JsValue) (name : string)
    (k : JsValue → M X B) (x : X) :
  bind (get envs name) k x =
    if eq_undefined (setting envs name) &&
       default false (required <$> (ENTRIES !! name))
    then (Throw (mandatory_error name), x, [])
    else k (if bool_decide (name = "CHAIN_ID") &&
               strict_ne_undefined (setting envs name)
            then VStr ("0x" +:+ Number_toString_16 (setting envs name))
            else setting envs name) x.
Proof.
  unfold bind. rewrite get_run.
  destruct (eq_undefined (setting envs name) && _); [done|].
  by destruct (k _ x) as [[r x1] t].
Qed.

Lemma bind_get_optional {B} (envs : gmap string JsValue) (name : string)
    (k : JsValue → M X B) (x : X) :
  optional name → name ≠ "CHAIN_ID" →
  bind (get envs name) k x = k (setting envs name) x.
Proof.
  unfold optional. intros Hopt Hname.
  by rewrite bind_get, Hopt, andb_false_r, (bool_decide_eq_false_2 _ Hname).
Qed.

(** X12. In read-write mode [validateReadOnlyMode] prints nothing, and the
    error it throws names the first credential that is absent:
    [OPERATOR_ID_MAIN] when it is absent, whether or not the key is, and
    [OPERATOR_KEY_MAIN] when only the key is absent. *)
Theorem validateReadOnlyMode_read_write (envs : gmap string JsValue) (x : X) :
  optional "READ_ONLY" →
  optional "OPERATOR_ID_MAIN" →
  optional "OPERATOR_KEY_MAIN" →
  readOnly envs = false →
  validateReadOnlyMode envs x =
    (if negb (truthy (setting envs "OPERATOR_ID_MAIN"))
     then Throw (read_write_error "OPERATOR_ID_MAIN")
     else if negb (truthy (setting envs "OPERATOR_KEY_MAIN"))
          then Throw (read_write_error "OPERATOR_KEY_MAIN")
          else Ok tt,
     x, []).
Proof.
  unfold readOnly, validateReadOnlyMode. intros Hro Hid Hkey Hmode.
  cbn [forEach]. rewrite bind_get_optional by done. rewrite Hmode.
  unfold bind at 1. rewrite bind_get_optional by done.
  destruct (truthy (setting envs "OPERATOR_ID_MAIN")); [|done]. simpl.
  unfold bind at 1. rewrite bind_get_optional by done.
  by destruct (truthy (setting envs "OPERATOR_KEY_MAIN")).
Qed.

(** X13. In read-only mode [validateReadOnlyMode] returns after printing
    the notice of the mode and then one warning for each credential that is
    set, the id before the key; it warns about nothing else. *)
Theorem validateReadOnlyMode_read_only (envs : gmap string JsValue) (x : X) :
  optional "READ_ONLY" →
  optional "OPERATOR_ID_MAIN" →
  optional "OPERATOR_KEY_MAIN" →
  readOnly envs = true →
  validateReadOnlyMode envs x =
    (Ok tt, x,
     LogInfo "Relay is in READ_ONLY mode. It will not send transactions." ::
     (if truthy (setting envs "OPERATOR_ID_MAIN")
      then [read_only_warning "OPERATOR_ID_MAIN"] else []) ++
     (if truthy (setting envs "OPERATOR_KEY_MAIN")
      then [read_only_warning "OPERATOR_KEY_MAIN"] else [])).
Proof.
  unfold readOnly, validateReadOnlyMode. intros Hro Hid Hkey Hmode.
  cbn [forEach]. rewrite bind_get_optional by done. rewrite Hmode.
  unfold bind at 1, effect at 1. unfold bind at 1.
  rewrite bind_get_optional by done.
  destruct (truthy (setting envs "OPERATOR_ID_MAIN")); unfold effect, ret;
    unfold bind at 1; rewrite bind_get_optional by done;
    by destruct (truthy (setting envs "OPERATOR_KEY_MAIN")).
Qed.

(** X14. When the table of entries marks [READ_ONLY] as required and the
    setting is missing, [validateReadOnlyMode] throws the error of [get] for
    [READ_ONLY] before looking at any credential, and prints nothing. *)
Theorem validateReadOnlyMode_mode_missing (envs : gmap string JsValue) (x : X) :
  eq_undefined (setting envs "READ_ONLY") = true →
  default false (required <$> (ENTRIES !! "READ_ONLY")) = true →
  validateReadOnlyMode envs x =
    (Throw (Error "Configuration error: READ_ONLY is a mandatory configuration for relay operation."),
     x, []).
Proof.
  intros Hunset Hrequired. unfold validateReadOnlyMode.
  by rewrite bind_get, Hunset, Hrequired.
Qed.
End ConfigServiceFurther.


(** ** The singleton of the configuration service *)
Section SingletonProperties.
Context {globalConfig : ConfigService.GlobalConfig} {startUp : Singleton.StartUp}.
Import ConfigService Singleton.

Lemma forEach_effects {X A} (f : A → Effect) (l : list A) (x : X) :
  forEach (λ a, effect (f a)) l x = (Ok tt, x, f <$> l).
Proof.
  induction l as [|a l IH]; [done|].
  cbn [forEach]. unfold bind, effect at 1. by rewrite IH.
Qed.

(** Validation of the mode leaves the outside state alone and prints
    nothing but its notice and its two warnings. *)
Lemma validateReadOnlyMode_shape {X} (envs : gmap string JsValue) (x : X) :
  ∃ r t, validateReadOnlyMode envs x = (r, x, t) ∧ Forall (λ e, e ∈ notices) t.
Proof.
  assert (∀ r t, Forall (λ e, e ∈ notices) t →
            ∃ r' t', (r, x, t) = (r' : Result unit, x, t') ∧
                     Forall (λ e, e ∈ notices) t') as Hdone by eauto.
  assert (Forall (λ e, e ∈ notices) []) as H0 by constructor.
  assert (LogInfo "Relay is in READ_ONLY mode. It will not send transactions."
            ∈ notices) as H1.
  { apply list_elem_of_further, list_elem_of_here. }
  assert (read_only_warning "OPERATOR_ID_MAIN" ∈ notices) as H2.
  { do 2 apply list_elem_of_further. apply list_elem_of_here. }
  assert (read_only_warning "OPERATOR_KEY_MAIN" ∈ notices) as H3.
  { do 3 apply list_elem_of_further. apply list_elem_of_here. }
  unfold validateReadOnlyMode. cbn [forEach]. rewrite bind_get.
  destruct (_ && _); [by apply Hdone|].
  destruct (truthy _).
  - unfold bind at 1, effect at 1. unfold bind at 1. rewrite bind_get.
    destruct (_ && _); [apply Hdone; by repeat constructor|].
    destruct (truthy _); unfold effect, ret; unfold bind at 1; rewrite bind_get;
      (destruct (_ && _); [apply Hdone; by repeat constructor|]);
      destruct (truthy _); apply Hdone; by repeat constructor.
  - unfold bind at 1. rewrite bind_get.
    destruct (_ && _); [by apply Hdone|].
    destruct (negb _); [by apply Hdone|]. unfold ret. unfold bind at 1.
    rewrite bind_get.
    destruct (_ && _); [by apply Hdone|].
    destruct (negb _); by apply Hdone.
Qed.

Lemma new_ConfigService_run (p : Process) :
  new_ConfigService p =
    match ValidationService_startUp (process_env (loaded p)) with
    | Some error => (Throw error, loaded p, missing_file_warning)
    | None =>
        (match outcome (validateReadOnlyMode (envs (cast p)) (loaded p)) with
         | Ok _ => Ok (cast p)
         | Throw error => Throw error
         end,
         loaded p,
         missing_file_warning ++ masked_lines (cast p) ++
         trace (validateReadOnlyMode (envs (cast p)) (loaded p)))
    end.
Proof.
  unfold new_ConfigService, loaded, cast, missing_file_warning, masked_lines.
  unfold loaded.
  set (found := bool_decide (default "" (findConfig envFileName) ≠ "")).
  unfold bind at 1.
  assert ((if found
           then do env <- gets process_env;
                set_process_env (dotenv_config (default "" (findConfig envFileName)) env)
           else effect (LogWarn None
             "No .env file is found. The relay cannot operate without valid .env.")) p
          = (Ok tt,
             (if found
              then {| process_env :=
                        dotenv_config (default "" (findConfig envFileName))
                                      (process_env p);
                      instance := instance p |}
              else p),
             if found then []
             else [LogWarn None
               "No .env file is found. The relay cannot operate without valid .env."]))
    as ->.
  { by destruct found. }
  set (p1 := if found then _ else p).
  unfold bind at 1, gets at 1. unfold bind at 1.
  destruct (ValidationService_startUp (process_env p1)) as [error|].
  { unfold throw. by rewrite app_nil_r. }
  unfold ret at 1. unfold bind at 1. rewrite forEach_effects.
  destruct (validateReadOnlyMode_shape
              (envs {| entries := ValidationService_typeCasting (process_env p1) |})
              p1) as (r & t & Hval & _).
  unfold bind, ret. rewrite !Hval, outcome_run, trace_run.
  destruct r as [[]|error]; simpl; by rewrite ?app_nil_r.
Qed.

(** X15. The constructor validates before it prints: when
    [ValidationService.startUp] rejects the environment, the constructor
    throws that error and no variable has been printed, masked or not; the
    only possible line is the warning about the missing [.env] file.
    Otherwise the variables are printed and the constructor fails exactly
    when the validation of the mode fails. *)
Theorem new_ConfigService_validates_first (p : Process) :
  (∀ error, ValidationService_startUp (process_env (loaded p)) = Some error →
     new_ConfigService p = (Throw error, loaded p, missing_file_warning)) ∧
  (ValidationService_startUp (process_env (loaded p)) = None →
     trace (new_ConfigService p) =
       missing_file_warning ++ masked_lines (cast p) ++
       trace (validateReadOnlyMode (envs (cast p)) (loaded p)) ∧
     (∀ error, outcome (new_ConfigService p) = Throw error ↔
        outcome (validateReadOnlyMode (envs (cast p)) (loaded p)) = Throw error) ∧
     (∀ this, outcome (new_ConfigService p) = Ok this → this = cast p)).
Proof.
  rewrite new_ConfigService_run. split.
  - by intros error ->.
  - intros ->. rewrite outcome_run, trace_run. split; [done|].
    destruct (outcome (validateReadOnlyMode _ _)) as [[]|error'];
      split; intros; try split; intros; simplify_eq; done.
Qed.

(** X16. Everything the constructor prints is a line made by
    [LoggerService.maskUpEnv] for a variable of the instance, or one of four
    fixed messages; a value of the environment reaches the log through the
    masking function only. *)
Theorem new_ConfigService_prints_masked (p : Process) :
  Forall (λ e, e ∈ masked_lines (cast p) ∨ e ∈ notices)
         (trace (new_ConfigService p)).
Proof.
  rewrite new_ConfigService_run.
  assert (Forall (λ e, e ∈ masked_lines (cast p) ∨ e ∈ notices)
                 missing_file_warning) as Hwarn.
  { unfold missing_file_warning. case_bool_decide; [constructor|].
    apply Forall_cons; split; [|constructor]. right. apply list_elem_of_here. }
  destruct (ValidationService_startUp _) as [error|]; rewrite trace_run; [done|].
  rewrite !Forall_app. split; [done|]. split.
  - apply Forall_forall. intros e He. by left.
  - destruct (validateReadOnlyMode_shape (envs (cast p)) (loaded p))
      as (r & t & -> & Ht).
    rewrite trace_run. eapply Forall_impl; [exact Ht|]. intros e He. by right.
Qed.

Lemma getInstance_run (p : Process) :
  getInstance p =
    match instance p with
    | Some this => (Ok this, p, [])
    | None =>
        match outcome (new_ConfigService p) with
        | Ok this =>
            (Ok this,
             {| process_env := process_env (loaded p); instance := Some this |},
             trace (new_ConfigService p))
        | Throw error => (Throw error, loaded p, trace (new_ConfigService p))
        end
    end.
Proof.
  unfold getInstance, bind at 1, gets.
  destruct (instance p) as [this|] eqn:Hinst; [done|].
  unfold bind, set_instance, ret.
  pose proof (new_ConfigService_run p) as Hrun.
  destruct (new_ConfigService p) as [[[this|error] p1] t].
  - rewrite outcome_run, trace_run.
    assert (p1 = loaded p) as ->.
    { destruct (ValidationService_startUp _); by injection Hrun. }
    simpl. by rewrite !app_nil_r.
  - rewrite outcome_run, trace_run.
    assert (p1 = loaded p) as ->.
    { destruct (ValidationService_startUp _); by injection Hrun. }
    done.
Qed.

(** X17. The instance is built once: after a call of [getInstance] that
    returned, the instance is stored, a further call returns the same
    instance without running the constructor (nothing is validated, nothing
    is printed, the process is unchanged), and the static [get] reads from
    the [envs] of that instance. *)
Theorem getInstance_constructs_once (p : Process) this p1 t :
  getInstance p = (Ok this, p1, t) →
  instance p1 = Some this ∧
  getInstance p1 = (Ok this, p1, []) ∧
  ∀ name, static_get name p1 = get (envs this) name p1.
Proof.
  rewrite getInstance_run. intros Hfirst.
  assert (instance p1 = Some this) as Hstored.
  { destruct (instance p) as [this'|] eqn:Hinst.
    - by injection Hfirst as -> <- _.
    - destruct (outcome (new_ConfigService p)); [|done].
      by injection Hfirst as -> <- _. }
  split; [done|].
  assert (getInstance p1 = (Ok this, p1, [])) as Hagain.
  { by rewrite getInstance_run, Hstored. }
  split; [done|].
  intros name. unfold static_get, bind. rewrite Hagain.
  by destruct (get (envs this) name p1) as [[r p2] t2].
Qed.

(** X18. A failed construction is not remembered: [getInstance] throws only
    when no instance is stored, with the error of the constructor, and it
    leaves the static field empty, so that the next call runs the constructor
    again; what the [.env] file added to [process.env] stays. *)
Theorem getInstance_failure_not_cached (p : Process) error :
  outcome (getInstance p) = Throw error →
  instance p = None ∧
  outcome (new_ConfigService p) = Throw error ∧
  outside (getInstance p) = loaded p ∧
  instance (loaded p) = None.
Proof.
  rewrite getInstance_run.
  destruct (instance p) as [this|] eqn:Hinst; [done|].
  destruct (outcome (new_ConfigService p)) as [this|error']; [done|].
  rewrite outcome_run, outside_run. intros [= ->].
  repeat split. unfold loaded. by case_bool_decide.
Qed.
End SingletonProperties.


(** ** Rejections inside a listener *)
Section Rejections.
Context {X : Type} {collaborators : Collaborators X}.
Import MetricService.

(** X21. When the budget enforcer makes [captureTransactionMetrics] raise
    for a [TransactionExecuted] event, nothing handles the rejection: on the
    emitter of a fresh service the event leaves the effects of the method
    followed by an unhandled rejection carrying that error, and the
    publisher goes on. *)
Theorem emit_transaction_unhandled_rejection payload x err :
  outcome (captureTransactionMetrics payload x) = Throw err →
  emit subscriptions (TransactionExecuted payload) x =
    (Ok tt, outside (captureTransactionMetrics payload x),
     trace (captureTransactionMetrics payload x) ++ [UnhandledRejection err]).
Proof.
  intros Hraise. rewrite emit_subscriptions. simpl.
  unfold floating, try_catch, effect.
  destruct (captureTransactionMetrics payload x) as [[r x1] t].
  rewrite outcome_run in Hraise. by subst r.
Qed.
End Rejections.

(** ** The further theorems at work on concrete collaborators *)

Lemma captureTransactionMetrics_nothing_to_charge_witness :
  MetricService.captureTransactionMetrics (collaborators := Sample.nothing_to_charge)
    Fixture.transaction tt =
    (Ok tt, tt,
     [MirrorGetTransactionRecordMetrics "0.0.902@1684375868.230217103"
        "EthereumTransaction" "0.0.902" Fixture.requestDetails]).
Proof.
  apply (captureTransactionMetrics_nothing_to_charge
           (collaborators := Sample.nothing_to_charge)
           Fixture.transaction tt Sample.free_record tt); reflexivity.
Defined.

Lemma captureTransactionMetrics_fee_rejected_witness :
  outcome (MetricService.captureTransactionMetrics
             (collaborators := Sample.enforcer_down) Fixture.transaction tt) =
    Throw (Error "Cannot add expense") ∧
  outside (MetricService.captureTransactionMetrics
             (collaborators := Sample.enforcer_down) Fixture.transaction tt) = tt ∧
  emissions (trace (MetricService.captureTransactionMetrics
                      (collaborators := Sample.enforcer_down)
                      Fixture.transaction tt)) =
    [fee_emission Fixture.transaction Fixture.record] ∧
  filter observes (trace (MetricService.captureTransactionMetrics
                            (collaborators := Sample.enforcer_down)
                            Fixture.transaction tt)) =
    [AddExpense 5000 "0x05fba803be258049a27b820088bab1cad2058871"
                Fixture.requestDetails].
Proof.
  apply (captureTransactionMetrics_fee_rejected
           (collaborators := Sample.enforcer_down)
           Fixture.transaction tt Fixture.record tt (Error "Cannot add expense") tt);
    [reflexivity | discriminate | reflexivity].
Defined.

Lemma captureTransactionMetrics_totals_witness :
  forwarded (trace (MetricService.captureTransactionMetrics
                      (collaborators := Fixture.healthy) Fixture.transaction tt)) =
    5000 + 300 ∧
  observed_cost (trace (MetricService.captureTransactionMetrics
                          (collaborators := Fixture.healthy)
                          Fixture.transaction tt)) = 5000 + 300 ∧
  observed_gas (trace (MetricService.captureTransactionMetrics
                         (collaborators := Fixture.healthy)
                         Fixture.transaction tt)) = 21000.
Proof.
  apply (captureTransactionMetrics_totals (collaborators := Fixture.healthy)
           Fixture.transaction tt Fixture.record); reflexivity.
Defined.

Lemma emit_transaction_unhandled_rejection_witness :
  trace (MetricService.emit (collaborators := Sample.enforcer_down) subscriptions
           (TransactionExecuted Fixture.transaction) tt) =
    trace (MetricService.captureTransactionMetrics
             (collaborators := Sample.enforcer_down) Fixture.transaction tt) ++
    [UnhandledRejection (Error "Cannot add expense")].
Proof.
  rewrite (emit_transaction_unhandled_rejection
             (collaborators := Sample.enforcer_down)
             Fixture.transaction tt (Error "Cannot add expense"));
    reflexivity.
Defined.

Lemma get_precedence_witness :
  ConfigService.get (globalConfig := Fixture.globalConfig)
    Fixture.envs_without_key "OPERATOR_ID_MAIN" tt =
    (Ok (ConfigService.VStr "0.0.2"), tt, []) ∧
  ConfigService.get (globalConfig := Fixture.globalConfig)
    Fixture.envs_without_key "OPERATOR_KEY_MAIN" tt =
    (Ok ConfigService.VNull, tt, []).
Proof.
  split.
  - destruct (get_precedence (globalConfig := Fixture.globalConfig)
                Fixture.envs_without_key "OPERATOR_ID_MAIN"
                {| ConfigService.required := false;
                   ConfigService.defaultValue := ConfigService.VNull |} tt)
      as [Henv _]; [discriminate | reflexivity |].
    apply Henv; reflexivity.
  - destruct (get_precedence (globalConfig := Fixture.globalConfig)
                Fixture.envs_without_key "OPERATOR_KEY_MAIN"
                {| ConfigService.required := false;
                   ConfigService.defaultValue := ConfigService.VNull |} tt)
      as [_ Hdefault]; [discriminate | reflexivity |].
    apply Hdefault; reflexivity.
Defined.

Lemma validateReadOnlyMode_read_write_witness :
  ConfigService.validateReadOnlyMode (globalConfig := Fixture.globalConfig)
    Fixture.envs_without_key tt =
    (Throw (ConfigService.read_write_error "OPERATOR_KEY_MAIN"), tt, []).
Proof.
  apply (validateReadOnlyMode_read_write (globalConfig := Fixture.globalConfig)
           Fixture.envs_without_key tt); reflexivity.
Defined.

Lemma validateReadOnlyMode_read_only_witness :
  ConfigService.validateReadOnlyMode (globalConfig := Fixture.globalConfig)
    Sample.envs_read_only tt =
    (Ok tt, tt,
     [LogInfo "Relay is in READ_ONLY mode. It will not send transactions.";
      ConfigService.read_only_warning "OPERATOR_ID_MAIN"]).
Proof.
  apply (validateReadOnlyMode_read_only (globalConfig := Fixture.globalConfig)
           Sample.envs_read_only tt); reflexivity.
Defined.

Lemma validateReadOnlyMode_mode_missing_witness :
  ConfigService.validateReadOnlyMode (globalConfig := Sample.strictConfig) ∅ tt =
    (Throw (Error "Configuration error: READ_ONLY is a mandatory configuration for relay operation."),
     tt, []).
Proof.
  apply (validateReadOnlyMode_mode_missing (globalConfig := Sample.strictConfig)
           ∅ tt); reflexivity.
Defined.

Lemma getInstance_constructs_once_witness :
  Singleton.getInstance (globalConfig := Fixture.globalConfig)
    (startUp := Sample.startUp) Sample.started =
    (Ok Sample.started_instance, Sample.started, []) ∧
  Singleton.static_get (globalConfig := Fixture.globalConfig)
    (startUp := Sample.startUp) "CHAIN_ID" Sample.started =
    (Ok (ConfigService.VStr "0x12a"), Sample.started, []).
Proof.
  destruct (getInstance_constructs_once (globalConfig := Fixture.globalConfig)
              (startUp := Sample.startUp) Sample.fresh Sample.started_instance
              Sample.started
              [LogWarn None
                 "No .env file is found. The relay cannot operate without valid .env.";
               LogInfo "READ_ONLY = **********";
               LogInfo "CHAIN_ID = **********";
               LogInfo "Relay is in READ_ONLY mode. It will not send transactions."])
    as (_ & Hagain & Hget); [reflexivity|].
  split; [exact Hagain|]. rewrite Hget. reflexivity.
Defined.

Lemma getInstance_failure_not_cached_witness :
  Singleton.instance
    (outside (Singleton.getInstance (globalConfig := Fixture.globalConfig)
                (startUp := Sample.startUp_invalid) Sample.fresh)) = None.
Proof.
  destruct (getInstance_failure_not_cached (globalConfig := Fixture.globalConfig)
              (startUp := Sample.startUp_invalid) Sample.fresh
              (Error "MIRROR_NODE_URL is a mandatory and the relay cannot operate without its value."))
    as (_ & _ & -> & Hnone); [reflexivity|exact Hnone].
Defined.
